(** * Review workflow of kb-curator-standalone

    A shallow embedding of the document/chunk review pipeline:
    [src/src/lib/api/gemini-processor.ts] (processAndStoreDocument,
    enrichChunkMetadata, getChunksForReview, approveChunk, rejectChunk,
    saveChunkDraft, submitDocument), the enrichment call [enrichChunk] of
    [src/unnamed/part_002] (the flowise module), the role check [isRole] of
    [src/src/hooks/useAuth.tsx] and the [approve-document] request of the
    admin edge function [src/supabase/functions/admin-api/index.ts].

    The hosted store is a record of tables, each a list of rows.  A
    supabase [update(...).eq('id', x)] rewrites every row whose column
    matches; [.single()] yields a row only when exactly one row matches.
    Store faults the source checks ([if (error) ...]) are explicit inputs of
    the operations.  A thrown JS [Error] is modelled by its message. *)

From Stdlib Require Import String Ascii List Bool Arith Lia QArith Sorted Permutation.
Import ListNotations.
Close Scope Q_scope.
Open Scope nat_scope.
Open Scope list_scope.
Open Scope string_scope.
Set Warnings "-register-all".

(* ------------------------------------------------------------------ *)
(** ** JS values and objects *)

(** A JSON value as it sits in an [ai_metadata] column. *)
Inductive jval : Type :=
| JNull
| JBool (b : bool)
| JNum (q : Q)
| JStr (s : string)
| JArr (xs : list jval)
| JObj (o : list (string * jval)).

(** JS truthiness: [null], [false], [0] and [""] are falsy. *)
Definition truthy (v : jval) : bool :=
  match v with
  | JNull => false
  | JBool b => b
  | JNum q => negb (Qeq_bool q 0)
  | JStr s => negb (String.eqb s "")
  | JArr _ | JObj _ => true
  end.

(** A property read [o.k] yields [undefined] (here [None]) or a value. *)
Definition truthy_opt (v : option jval) : bool :=
  match v with Some x => truthy x | None => false end.

(** JS [a || b] on possibly-undefined operands. *)
Definition jor (a b : option jval) : option jval :=
  if truthy_opt a then a else b.

(** A plain JS object: its own keys in insertion order. *)
Definition obj := list (string * jval).

Fixpoint obj_get (k : string) (o : obj) : option jval :=
  match o with
  | [] => None
  | (k', v) :: o' => if String.eqb k k' then Some v else obj_get k o'
  end.

(** Property read [v.k] on a JSON value; on a non-object it is [undefined]
    (reads on [null] throw in JS; every call site below is inside a
    [try] whose handler ends in the same result). *)
Definition jget (k : string) (v : jval) : option jval :=
  match v with JObj o => obj_get k o | _ => None end.

(** Property assignment [o[k] = v]: an existing key keeps its position. *)
Fixpoint obj_set (k : string) (v : jval) (o : obj) : obj :=
  match o with
  | [] => [(k, v)]
  | (k', v') :: o' =>
      if String.eqb k k' then (k', v) :: o' else (k', v') :: obj_set k v o'
  end.

(** Object spread [{...o, ...p}]: the keys of [p] assigned onto [o]. *)
Definition spread (o p : obj) : obj :=
  fold_left (fun acc kv => obj_set (fst kv) (snd kv) acc) p o.

(** Decimal rendering of a number in a template literal [`${n}`]. *)
Fixpoint uint_to_string (u : Decimal.uint) : string :=
  match u with
  | Decimal.Nil => ""
  | Decimal.D0 u => String "0" (uint_to_string u)
  | Decimal.D1 u => String "1" (uint_to_string u)
  | Decimal.D2 u => String "2" (uint_to_string u)
  | Decimal.D3 u => String "3" (uint_to_string u)
  | Decimal.D4 u => String "4" (uint_to_string u)
  | Decimal.D5 u => String "5" (uint_to_string u)
  | Decimal.D6 u => String "6" (uint_to_string u)
  | Decimal.D7 u => String "7" (uint_to_string u)
  | Decimal.D8 u => String "8" (uint_to_string u)
  | Decimal.D9 u => String "9" (uint_to_string u)
  end.

Definition nat_to_string (n : nat) : string := uint_to_string (Nat.to_uint n).

(** [s] contains [t] as a substring. *)
Definition contains (s t : string) : Prop := exists a b, s = a ++ t ++ b.

(** [x || null] on a string argument. *)
Definition or_null (s : string) : option string :=
  if String.eqb s "" then None else Some s.

(* ------------------------------------------------------------------ *)
(** ** Data model (the tables of the store) *)

Inductive processing_status :=
| PPending | PProcessing | PReview | PSubmitted | PCompleted | PFailed.

Inductive review_status :=
| RPending | RApproved | RRejected | RFiltered | REnriching | RDraft.

Inductive queue_status := QPending | QInProgress | QCompleted.

Inductive user_role := User | Curator | Admin.

Definition review_status_eqb (a b : review_status) : bool :=
  match a, b with
  | RPending, RPending | RApproved, RApproved | RRejected, RRejected
  | RFiltered, RFiltered | REnriching, REnriching | RDraft, RDraft => true
  | _, _ => false
  end.

Module Doc.
(** A row of [documents]. *)
Record t := mk {
  id : string;
  filename : string;
  original_filename : option string;
  doc_type : string;
  storage_path : string;
  uploaded_by : option string;
  source_url : option string;
  processing_status : processing_status;
  total_chunks : nat;
  approved_chunks : nat;
  rejected_chunks : nat;
  error_message : option string;
  metadata : obj
}.
End Doc.

Module Chunk.
(** A row of [document_chunks]. *)
Record t := mk {
  id : string;
  document_id : string;
  chunk_index : nat;
  chunk_text : string;
  chunk_size : nat;
  is_filtered : bool;
  filtered_reason : option string;
  review_status : review_status;
  ai_metadata : option obj;
  confidence_score : option jval;
  curator_notes : option string;
  reviewed_by : option string;
  reviewed_at : option string
}.
End Chunk.

Module Vec.
(** A row of [kb_vectors] (the [KBVectorData] the client inserts). *)
Record t := mk {
  chunk_id : string;
  document_id : string;
  content : string;
  doc_type : option jval;
  topic : option jval;
  subtopic : option jval;
  use_cases : option jval;
  key_concepts : option jval;
  relevance_score : option jval;
  curator_notes : option string;
  source_document : option jval;
  source_url : option jval;
  domain : option jval;
  curator_name : option jval;
  tags : option jval;
  chunk_index : option jval;
  word_count : option jval;
  approved_by : string;
  last_updated : string
}.
End Vec.

Module Queue.
(** A row of [curation_queue]. *)
Record t := mk {
  id : string;
  kb_id : string;
  url : string;
  status : queue_status
}.
End Queue.

Module Profile.
(** A row of [profiles]. *)
Record t := mk {
  id : string;
  full_name : option string;
  role : user_role;
  is_active : bool
}.
End Profile.

(** The store; [next_id] stands for the generator of fresh row ids. *)
Record db := mkDb {
  documents : list Doc.t;
  document_chunks : list Chunk.t;
  kb_vectors : list Vec.t;
  curation_queue : list Queue.t;
  profiles : list Profile.t;
  next_id : nat
}.

Definition set_documents (s : db) (ds : list Doc.t) : db :=
  mkDb ds s.(document_chunks) s.(kb_vectors) s.(curation_queue) s.(profiles) s.(next_id).
Definition set_chunks (s : db) (cs : list Chunk.t) : db :=
  mkDb s.(documents) cs s.(kb_vectors) s.(curation_queue) s.(profiles) s.(next_id).
Definition set_vectors (s : db) (vs : list Vec.t) : db :=
  mkDb s.(documents) s.(document_chunks) vs s.(curation_queue) s.(profiles) s.(next_id).
Definition set_queue (s : db) (qs : list Queue.t) : db :=
  mkDb s.(documents) s.(document_chunks) s.(kb_vectors) qs s.(profiles) s.(next_id).
Definition set_next_id (s : db) (n : nat) : db :=
  mkDb s.(documents) s.(document_chunks) s.(kb_vectors) s.(curation_queue) s.(profiles) n.

(** [.select().eq(col, x).single()]: a row only when exactly one matches. *)
Definition single {A} (rows : list A) : option A :=
  match rows with [r] => Some r | _ => None end.

(** [update(f).eq(col, x)]. *)
Definition update_where {A} (p : A -> bool) (f : A -> A) (rows : list A) : list A :=
  map (fun r => if p r then f r else r) rows.

Definition doc_by_id (x : string) (d : Doc.t) : bool := String.eqb d.(Doc.id) x.
Definition chunk_by_id (x : string) (c : Chunk.t) : bool := String.eqb c.(Chunk.id) x.
Definition chunk_by_doc (x : string) (c : Chunk.t) : bool :=
  String.eqb c.(Chunk.document_id) x.

(* ------------------------------------------------------------------ *)
(** ** The async functions as a state-and-exception monad *)

Inductive outcome (A : Type) := Ret (a : A) | Throw (msg : string).
Arguments Ret {A} a.
Arguments Throw {A} msg.

Definition M (A : Type) := db -> db * outcome A.

Definition ret {A} (a : A) : M A := fun s => (s, Ret a).
Definition throw {A} (msg : string) : M A := fun s => (s, Throw msg).
Definition bind {A B} (m : M A) (k : A -> M B) : M B :=
  fun s => match m s with
           | (s', Ret a) => k a s'
           | (s', Throw e) => (s', Throw e)
           end.
Definition get : M db := fun s => (s, Ret s).
Definition modify (f : db -> db) : M unit := fun s => (f s, Ret tt).
(** [try { m } catch (e) { h(e) }]. *)
Definition try_catch {A} (m : M A) (h : string -> M A) : M A :=
  fun s => match m s with
           | (s', Ret a) => (s', Ret a)
           | (s', Throw e) => h e s'
           end.

Notation "x <- m ;; k" := (bind m (fun x => k))
  (at level 61, m at next level, right associativity).
Notation "m ;;; k" := (bind m (fun _ => k)) (at level 61, right associativity).

(** Updates of single columns. *)
Definition doc_set_status (st : processing_status) (d : Doc.t) : Doc.t :=
  Doc.mk d.(Doc.id) d.(Doc.filename) d.(Doc.original_filename) d.(Doc.doc_type)
    d.(Doc.storage_path) d.(Doc.uploaded_by) d.(Doc.source_url) st
    d.(Doc.total_chunks) d.(Doc.approved_chunks) d.(Doc.rejected_chunks)
    d.(Doc.error_message) d.(Doc.metadata).

(* ------------------------------------------------------------------ *)
(** ** submitDocument *)

Definition is_blocking (c : Chunk.t) : bool :=
  review_status_eqb c.(Chunk.review_status) RPending
  || review_status_eqb c.(Chunk.review_status) RDraft
  || review_status_eqb c.(Chunk.review_status) REnriching.

(** Chunks of a document in {pending, draft, enriching}. *)
Definition blocking_count (s : db) (documentId : string) : nat :=
  length (filter is_blocking (filter (chunk_by_doc documentId) s.(document_chunks))).

Definition submit_message (n : nat) : string :=
  "Cannot submit: " ++ nat_to_string n ++ " chunks are still pending or in draft.".

(** [submitDocument(documentId)]; [fetchError] and [updateError] are the
    store's answers to the select and to the update. *)
Definition submitDocument (documentId : string)
    (fetchError updateError : option string) : M unit :=
  match fetchError with
  | Some e => throw e
  | None =>
      s <- get ;;
      let chunks := filter (chunk_by_doc documentId) s.(document_chunks) in
      let pendingChunks := filter is_blocking chunks in
      if Nat.ltb 0 (length pendingChunks) then throw (submit_message (length pendingChunks))
      else
        match updateError with
        | Some e => throw ("Failed to submit document: " ++ e)
        | None =>
            modify (fun s => set_documents s
              (update_where (doc_by_id documentId) (doc_set_status PSubmitted)
                 s.(documents)))
        end
  end.

(** The own enumerable entries spread by [{...v}]: an object's entries, an
    array's or a string's by index, nothing for the other values. *)
Fixpoint index_entries {A} (f : A -> jval) (i : nat) (xs : list A) : obj :=
  match xs with
  | [] => []
  | x :: xs' => (nat_to_string i, f x) :: index_entries f (S i) xs'
  end.

Definition entries (v : jval) : obj :=
  match v with
  | JObj o => o
  | JArr xs => index_entries (fun x => x) 0 xs
  | JStr s => index_entries (fun c => JStr (String c EmptyString)) 0 (list_ascii_of_string s)
  | _ => []
  end.

Definition jnum_of_nat (n : nat) : jval := JNum (inject_Z (Z.of_nat n)).

(* ------------------------------------------------------------------ *)
(** ** Column updates *)

Definition doc_set_processing (meta : obj) (d : Doc.t) : Doc.t :=
  Doc.mk d.(Doc.id) d.(Doc.filename) d.(Doc.original_filename) d.(Doc.doc_type)
    d.(Doc.storage_path) d.(Doc.uploaded_by) d.(Doc.source_url) PProcessing
    d.(Doc.total_chunks) d.(Doc.approved_chunks) d.(Doc.rejected_chunks)
    d.(Doc.error_message) meta.

Definition doc_set_review (total : nat) (meta : obj) (d : Doc.t) : Doc.t :=
  Doc.mk d.(Doc.id) d.(Doc.filename) d.(Doc.original_filename) d.(Doc.doc_type)
    d.(Doc.storage_path) d.(Doc.uploaded_by) d.(Doc.source_url) PReview
    total d.(Doc.approved_chunks) d.(Doc.rejected_chunks)
    d.(Doc.error_message) meta.

Definition doc_set_failed (msg : string) (d : Doc.t) : Doc.t :=
  Doc.mk d.(Doc.id) d.(Doc.filename) d.(Doc.original_filename) d.(Doc.doc_type)
    d.(Doc.storage_path) d.(Doc.uploaded_by) d.(Doc.source_url) PFailed
    d.(Doc.total_chunks) d.(Doc.approved_chunks) d.(Doc.rejected_chunks)
    (Some msg) d.(Doc.metadata).

(** Modelled from the spec: the store functions [increment_approved_chunks]
    and [increment_rejected_chunks] called by RPC (their SQL is not under
    src/); the spec calls them server-side atomic counter increments. *)
Definition doc_incr_approved (d : Doc.t) : Doc.t :=
  Doc.mk d.(Doc.id) d.(Doc.filename) d.(Doc.original_filename) d.(Doc.doc_type)
    d.(Doc.storage_path) d.(Doc.uploaded_by) d.(Doc.source_url)
    d.(Doc.processing_status) d.(Doc.total_chunks) (S d.(Doc.approved_chunks))
    d.(Doc.rejected_chunks) d.(Doc.error_message) d.(Doc.metadata).

Definition doc_incr_rejected (d : Doc.t) : Doc.t :=
  Doc.mk d.(Doc.id) d.(Doc.filename) d.(Doc.original_filename) d.(Doc.doc_type)
    d.(Doc.storage_path) d.(Doc.uploaded_by) d.(Doc.source_url)
    d.(Doc.processing_status) d.(Doc.total_chunks) d.(Doc.approved_chunks)
    (S d.(Doc.rejected_chunks)) d.(Doc.error_message) d.(Doc.metadata).

Definition chunk_set_status (st : review_status) (c : Chunk.t) : Chunk.t :=
  Chunk.mk c.(Chunk.id) c.(Chunk.document_id) c.(Chunk.chunk_index) c.(Chunk.chunk_text)
    c.(Chunk.chunk_size) c.(Chunk.is_filtered) c.(Chunk.filtered_reason) st
    c.(Chunk.ai_metadata) c.(Chunk.confidence_score) c.(Chunk.curator_notes)
    c.(Chunk.reviewed_by) c.(Chunk.reviewed_at).

Definition chunk_set_enriched (meta : obj) (conf : option jval) (c : Chunk.t) : Chunk.t :=
  Chunk.mk c.(Chunk.id) c.(Chunk.document_id) c.(Chunk.chunk_index) c.(Chunk.chunk_text)
    c.(Chunk.chunk_size) c.(Chunk.is_filtered) c.(Chunk.filtered_reason) RPending
    (Some meta) conf c.(Chunk.curator_notes) c.(Chunk.reviewed_by) c.(Chunk.reviewed_at).

(** The review columns written by approve, reject and draft save. *)
Definition chunk_set_review (st : review_status) (meta : option obj) (notes : option string)
    (userId now : string) (c : Chunk.t) : Chunk.t :=
  Chunk.mk c.(Chunk.id) c.(Chunk.document_id) c.(Chunk.chunk_index) c.(Chunk.chunk_text)
    c.(Chunk.chunk_size) c.(Chunk.is_filtered) c.(Chunk.filtered_reason) st
    meta c.(Chunk.confidence_score) notes (Some userId) (Some now).

(* ------------------------------------------------------------------ *)
(** ** processAndStoreDocument *)

(** A chunk as the document-processing gateway returns it. *)
Record FlowiseChunk := mkFlowiseChunk {
  text : string;
  filtered : bool;
  filter_reason : option string
}.

Definition is_ws (c : ascii) : bool :=
  match nat_of_ascii c with 9 | 10 | 11 | 12 | 13 | 32 => true | _ => false end.

(** Maximal runs of non-whitespace characters. *)
Fixpoint word_runs (s : string) (in_word : bool) : nat :=
  match s with
  | EmptyString => 0
  | String c s' =>
      if is_ws c then word_runs s' false
      else if in_word then word_runs s' true else S (word_runs s' true)
  end.

(** [text.trim().split(/\s+/).length]: the empty string splits into one
    empty piece. *)
Definition word_count (t : string) : nat :=
  match word_runs t false with 0 => 1 | n => n end.

Definition opt_field (k : string) (v : option jval) : obj :=
  match v with Some x => [(k, x)] | None => [] end.

Definition opt_str (v : option string) : option jval := option_map JStr v.

(** The [ai_metadata] object written for the chunk at position [idx]; a
    key whose value is [undefined] is dropped by the JSON encoding. *)
Definition initial_metadata (documentId : string) (document : option Doc.t)
    (uploaderName : option string) (now : string) (idx : nat) (chunk : FlowiseChunk) : obj :=
  List.concat
   [[("chunk_id", JStr (documentId ++ "_" ++ nat_to_string idx))];
    opt_field "source_document"
      (match document with
       | Some d => jor (opt_str d.(Doc.original_filename)) (Some (JStr d.(Doc.filename)))
       | None => None end);
    opt_field "source_url" (option_map (fun d => JStr d.(Doc.storage_path)) document);
    opt_field "document_type" (option_map (fun d => JStr d.(Doc.doc_type)) document);
    opt_field "domain" (option_map (fun d => JStr d.(Doc.doc_type)) document);
    [("date_added", JStr now);
     ("curator", match uploaderName with Some n => JStr n | None => JNull end);
     ("tags", JArr []);
     ("chunk_index", jnum_of_nat idx);
     ("word_count", jnum_of_nat (word_count chunk.(text)));
     ("last_updated", JStr now)]].

Fixpoint build_inserts (documentId : string) (document : option Doc.t)
    (uploaderName : option string) (now : string) (fresh idx : nat)
    (chunks : list FlowiseChunk) : list Chunk.t :=
  match chunks with
  | [] => []
  | chunk :: rest =>
      Chunk.mk ("chunk-" ++ nat_to_string fresh) documentId idx chunk.(text)
        (String.length chunk.(text)) chunk.(filtered)
        (match chunk.(filter_reason) with Some r => or_null r | None => None end)
        (if chunk.(filtered) then RFiltered else RPending)
        (Some (initial_metadata documentId document uploaderName now idx chunk))
        None None None None
      :: build_inserts documentId document uploaderName now (S fresh) (S idx) rest
  end.

Definition lift {A} (r : outcome A) : M A := fun s => (s, r).

(** [processAndStoreDocument(documentId, storageUrl, docType, filters)].
    [gateway] is what the selected provider ([processDocument] or
    [processDocumentWithGemini]) resolves or rejects with; [chunksError] is
    the store's answer to the batch insert. *)
Definition processAndStoreDocument (documentId storageUrl docType : string)
    (filters : list string) (now : string) (gateway : outcome (list FlowiseChunk))
    (chunksError : option string) : M nat :=
  modify (fun s => set_documents s
    (update_where (doc_by_id documentId)
       (doc_set_processing [("filters_applied", JArr (map JStr filters));
                            ("processing_started", JStr now)])
       s.(documents))) ;;;
  try_catch
    (chunks <- lift gateway ;;
     if Nat.eqb (length chunks) 0
     then throw "No chunks returned from document processing"
     else
       s <- get ;;
       let document := single (filter (doc_by_id documentId) s.(documents)) in
       let uploaderName :=
         match document with
         | Some d =>
             match d.(Doc.uploaded_by) with
             | Some u =>
                 if String.eqb u "" then None
                 else match single (filter (fun p => String.eqb p.(Profile.id) u) s.(profiles)) with
                      | Some p => match p.(Profile.full_name) with
                                  | Some n => or_null n | None => None end
                      | None => None
                      end
             | None => None
             end
         | None => None
         end in
       let chunkInserts := build_inserts documentId document uploaderName now s.(next_id) 0 chunks in
       match chunksError with
       | Some e => throw ("Failed to insert chunks: " ++ e)
       | None =>
           modify (fun s => set_next_id (set_chunks s (app s.(document_chunks) chunkInserts))
                              (s.(next_id) + length chunks)) ;;;
           let activeChunks := length (filter (fun c => negb c.(filtered)) chunks) in
           modify (fun s => set_documents s
             (update_where (doc_by_id documentId)
                (doc_set_review activeChunks
                   [("filters_applied", JArr (map JStr filters));
                    ("processed_at", JStr now);
                    ("total_chunks_before_filter", jnum_of_nat (length chunks));
                    ("filtered_chunks", jnum_of_nat (length (filter filtered chunks)))])
                s.(documents))) ;;;
           ret activeChunks
       end)
    (fun e =>
       modify (fun s => set_documents s
         (update_where (doc_by_id documentId) (doc_set_failed e) s.(documents))) ;;;
       throw e).

(* ------------------------------------------------------------------ *)
(** ** enrichChunk (flowise module) and enrichChunkMetadata *)

(** What [callFlowise] resolves with (a parsed JSON object) or rejects with. *)
Inductive flowise_response :=
| FlowOk (result : obj)
| FlowErr (msg : string).

(** The fixed metadata [enrichChunk] returns when it cannot use the answer. *)
Definition default_metadata : jval :=
  JObj [("topic", JStr "Unknown"); ("subtopic", JStr "");
        ("relevance_score", JNum (1 # 2)); ("use_cases", JArr []);
        ("key_concepts", JArr []); ("confidence", JNum (3 # 10))].

Section Enrich.

(** The JS builtin [JSON.parse]; [None] when it throws a SyntaxError. *)
Variable json_parse : string -> option jval.

(** [parsed.metadata || parsed]. *)
Definition metadata_or (parsed : jval) : jval :=
  match jget "metadata" parsed with
  | Some m => if truthy m then m else parsed
  | None => parsed
  end.

(** The response formats [enrichChunk] tries after [result.metadata]. *)
Definition enrich_other_formats (result : obj) : jval :=
  if truthy_opt (obj_get "topic" result) && truthy_opt (obj_get "use_cases" result)
  then JObj result
  else match obj_get "text" result with
       | Some (JStr t) =>
           match json_parse t with
           | Some parsed =>
               if truthy_opt (jget "topic" parsed) || truthy_opt (jget "metadata" parsed)
               then metadata_or parsed
               else default_metadata
           | None => default_metadata
           end
       | _ => default_metadata
       end.

(** [enrichChunk(chunkText, docType)]; [flow2Configured] is whether
    [FLOW2_ID] is set, [response] the outcome of the Flow 2 call.  Every
    failure after the configuration check is caught and answered with
    [default_metadata]. *)
Definition enrichChunk (flow2Configured : bool) (response : flowise_response) : outcome jval :=
  if negb flow2Configured then Throw "FLOW2_ID not configured"
  else
    match response with
    | FlowErr _ => Ret default_metadata
    | FlowOk result =>
        match obj_get "metadata" result with
        | Some m => if truthy m then Ret m else Ret (enrich_other_formats result)
        | None => Ret (enrich_other_formats result)
        end
    end.

(** [aiMetadata.confidence || aiMetadata.relevance_score || 0.5]. *)
Definition confidence_of (aiMetadata : jval) : option jval :=
  jor (jor (jget "confidence" aiMetadata) (jget "relevance_score" aiMetadata))
      (Some (JNum (1 # 2))).

(** [enrichChunkMetadata(chunkId, chunkText, docType)]; the store updates
    of this function are not checked for errors in the source. *)
Definition enrichChunkMetadata (chunkId : string) (now : string)
    (flow2Configured : bool) (response : flowise_response) : M unit :=
  try_catch
    (modify (fun s => set_chunks s
       (update_where (chunk_by_id chunkId) (chunk_set_status REnriching) s.(document_chunks))) ;;;
     aiMetadata <- lift (enrichChunk flow2Configured response) ;;
     s <- get ;;
     let existingMetadata :=
       match single (filter (chunk_by_id chunkId) s.(document_chunks)) with
       | Some c => match c.(Chunk.ai_metadata) with Some m => m | None => [] end
       | None => []
       end in
     let updatedMetadata :=
       obj_set "last_updated" (JStr now) (spread (spread [] existingMetadata) (entries aiMetadata)) in
     modify (fun s => set_chunks s
       (update_where (chunk_by_id chunkId)
          (chunk_set_enriched updatedMetadata (confidence_of aiMetadata))
          s.(document_chunks))))
    (fun _ =>
       modify (fun s => set_chunks s
         (update_where (chunk_by_id chunkId) (chunk_set_status RPending) s.(document_chunks)))).

End Enrich.

(* ------------------------------------------------------------------ *)
(** ** getChunksForReview *)

(** Postgres [order by confidence_score asc]: numbers ascending, NULLs last. *)
Definition conf_le (a b : Chunk.t) : bool :=
  match a.(Chunk.confidence_score), b.(Chunk.confidence_score) with
  | Some (JNum x), Some (JNum y) => Qle_bool x y
  | Some (JNum _), _ => true
  | _, Some (JNum _) => false
  | _, _ => true
  end.

Fixpoint insert_by (c : Chunk.t) (cs : list Chunk.t) : list Chunk.t :=
  match cs with
  | [] => [c]
  | c' :: cs' => if conf_le c c' then c :: cs else c' :: insert_by c cs'
  end.

Fixpoint sort_by_confidence (cs : list Chunk.t) : list Chunk.t :=
  match cs with
  | [] => []
  | c :: cs' => insert_by c (sort_by_confidence cs')
  end.

Definition chunk_is_pending (c : Chunk.t) : bool :=
  review_status_eqb c.(Chunk.review_status) RPending.

(** [getChunksForReview(documentId)]; [fetchError] is the store's answer. *)
Definition getChunksForReview (documentId : string) (fetchError : option string)
    : M (list Chunk.t) :=
  match fetchError with
  | Some e => throw ("Failed to fetch chunks: " ++ e)
  | None =>
      s <- get ;;
      ret (sort_by_confidence
             (filter chunk_is_pending (filter (chunk_by_doc documentId) s.(document_chunks))))
  end.

(* ------------------------------------------------------------------ *)
(** ** approveChunk, rejectChunk, saveChunkDraft *)

Definition meta_get (k : string) (m : obj) : option jval := obj_get k m.

(** The [KBVectorData] record built from the chunk as it was read before
    the status update. *)
Definition vector_data (chunkId : string) (chunk : Chunk.t) (document : option Doc.t)
    (profile : option Profile.t) (curatorNotes userId now : string) : Vec.t :=
  let m := match chunk.(Chunk.ai_metadata) with Some m => m | None => [] end in
  Vec.mk chunkId chunk.(Chunk.document_id) chunk.(Chunk.chunk_text)
    (jor (meta_get "document_type" m) (option_map (fun d => JStr d.(Doc.doc_type)) document))
    (jor (meta_get "topic" m) (Some JNull))
    (jor (meta_get "subtopic" m) (Some JNull))
    (jor (meta_get "use_cases" m) (Some (JArr [])))
    (jor (meta_get "key_concepts" m) (Some (JArr [])))
    (jor (meta_get "relevance_score" m) (Some JNull))
    (or_null curatorNotes)
    (meta_get "source_document" m)
    (meta_get "source_url" m)
    (meta_get "domain" m)
    (jor (match profile with Some p => opt_str p.(Profile.full_name) | None => None end)
         (meta_get "curator" m))
    (jor (meta_get "tags" m) (Some (JArr [])))
    (meta_get "chunk_index" m)
    (meta_get "word_count" m)
    userId now.

(** [approveChunk(chunkId, curatorNotes, userId)]; [updateError] and
    [vectorError] are the store's answers to the status update and to the
    [kb_vectors] insert.  The embedding call at the end catches its own
    failures and touches no table of the store. *)
Definition approveChunk (chunkId curatorNotes userId now : string)
    (updateError vectorError : option string) : M unit :=
  s <- get ;;
  match single (filter (chunk_by_id chunkId) s.(document_chunks)) with
  | None => throw "Chunk not found"
  | Some chunk =>
      match updateError with
      | Some e => throw ("Failed to approve chunk: " ++ e)
      | None =>
          modify (fun s => set_chunks s
            (update_where (chunk_by_id chunkId)
               (fun c => chunk_set_review RApproved c.(Chunk.ai_metadata) (or_null curatorNotes)
                           userId now c)
               s.(document_chunks))) ;;;
          s <- get ;;
          let profile := single (filter (fun p => String.eqb p.(Profile.id) userId) s.(profiles)) in
          let document := single (filter (doc_by_id chunk.(Chunk.document_id)) s.(documents)) in
          let vectorData := vector_data chunkId chunk document profile curatorNotes userId now in
          match vectorError with
          | None => modify (fun s => set_vectors s (app s.(kb_vectors) [vectorData]))
          | Some _ => ret tt
          end ;;;
          modify (fun s => set_documents s
            (update_where (doc_by_id chunk.(Chunk.document_id)) doc_incr_approved s.(documents)))
      end
  end.

(** [rejectChunk(chunkId, userId)]. *)
Definition rejectChunk (chunkId userId now : string) (updateError : option string) : M unit :=
  s <- get ;;
  match single (filter (chunk_by_id chunkId) s.(document_chunks)) with
  | None => throw "Chunk not found"
  | Some chunk =>
      match updateError with
      | Some e => throw ("Failed to reject chunk: " ++ e)
      | None =>
          modify (fun s => set_chunks s
            (update_where (chunk_by_id chunkId)
               (fun c => chunk_set_review RRejected c.(Chunk.ai_metadata) c.(Chunk.curator_notes)
                           userId now c)
               s.(document_chunks))) ;;;
          modify (fun s => set_documents s
            (update_where (doc_by_id chunk.(Chunk.document_id)) doc_incr_rejected s.(documents)))
      end
  end.

(** [saveChunkDraft(chunkId, curatorNotes, aiMetadata, userId)]. *)
Definition saveChunkDraft (chunkId curatorNotes : string) (aiMetadata : option obj)
    (userId now : string) (updateError : option string) : M unit :=
  match updateError with
  | Some e => throw ("Failed to save draft: " ++ e)
  | None =>
      modify (fun s => set_chunks s
        (update_where (chunk_by_id chunkId)
           (chunk_set_review RDraft aiMetadata (or_null curatorNotes) userId now)
           s.(document_chunks)))
  end.

(* ------------------------------------------------------------------ *)
(** ** isRole (useAuth) *)

(** [isRole(role)] over the loaded profile ([null] before it loads). *)
Definition isRole (profile : option Profile.t) (role : user_role) : bool :=
  match profile with
  | None => false
  | Some p =>
      if negb p.(Profile.is_active) then false
      else match p.(Profile.role), role with
           | Admin, _ => true
           | Curator, Curator | Curator, User => true
           | User, User => true
           | _, _ => false
           end
  end.

(** The order user < curator < admin, as ranks. *)
Definition role_rank (r : user_role) : nat :=
  match r with User => 0 | Curator => 1 | Admin => 2 end.

(* ------------------------------------------------------------------ *)
(** ** The admin edge function, [approve-document] request *)

(** A response: its status code and the message of its JSON body. *)
Record response := mkResponse { status : nat; body : string }.

Definition user_role_eqb (a b : user_role) : bool :=
  match a, b with
  | User, User | Curator, Curator | Admin, Admin => true
  | _, _ => false
  end.

Definition queue_set_completed (q : Queue.t) : Queue.t :=
  Queue.mk q.(Queue.id) q.(Queue.kb_id) q.(Queue.url) QCompleted.

Definition queue_match (url kb : string) (q : Queue.t) : bool :=
  String.eqb q.(Queue.url) url && String.eqb q.(Queue.kb_id) kb.

(** The [approve-document] branch, after the admin check. *)
Definition approve_document (documentId : string) (docError : option string) : M response :=
  match docError with
  | Some e => throw e
  | None =>
      modify (fun s => set_documents s
        (update_where (doc_by_id documentId) (doc_set_status PCompleted) s.(documents))) ;;;
      s <- get ;;
      match single (filter (doc_by_id documentId) s.(documents)) with
      | Some doc =>
          match doc.(Doc.source_url) with
          | Some u =>
              if String.eqb u "" then ret tt
              else modify (fun s => set_queue s
                     (update_where (queue_match u doc.(Doc.doc_type)) queue_set_completed
                        s.(curation_queue)))
          | None => ret tt
          end
      | None => ret tt
      end ;;;
      ret (mkResponse 200 "success")
  end.

(** The requests of the edge function; the other request types
    (list-profiles, update-role, assign-kbs, create-kb, delete-kb) touch
    only [profiles] and [knowledge_bases] and are not modelled. *)
Inductive request :=
| ApproveDocument (documentId : string)
| OtherType (type_ : string).

(** [serve(req)] for a POST: [authUser] is the user of the bearer token
    ([None] when [getUser] fails), [docError] the store's answer to the
    document update.  Every thrown error becomes a 400 response. *)
Definition serve (authUser : option string) (req : request) (docError : option string)
    : M response :=
  try_catch
    (match authUser with
     | None => throw "Unauthorized"
     | Some uid =>
         s <- get ;;
         match single (filter (fun p => String.eqb p.(Profile.id) uid) s.(profiles)) with
         | Some profile =>
             if user_role_eqb profile.(Profile.role) Admin then
               match req with
               | ApproveDocument documentId => approve_document documentId docError
               | OtherType _ => throw "Invalid request type"
               end
             else throw "Admin privileges required"
         | None => throw "Admin privileges required"
         end
     end)
    (fun e => ret (mkResponse 400 e)).

(* ------------------------------------------------------------------ *)
(** ** fallbackChunking (gemini-processor)

    Text is handled as a list of ASCII characters, so JS string length and
    the whitespace of [trim] and [\s] are the ASCII ones. *)

Definition is_punct (c : ascii) : bool :=
  match nat_of_ascii c with 33 | 46 | 63 => true | _ => false end.

(** [text.split(/[.!?]+/)]: a run of separators ends a piece; [cur] holds
    the current piece reversed, [sep] whether the last character was one. *)
Fixpoint split_runs (l : list ascii) (cur : list ascii) (sep : bool) : list (list ascii) :=
  match l with
  | [] => [rev cur]
  | c :: l' =>
      if is_punct c then
        if sep then split_runs l' cur true else rev cur :: split_runs l' [] true
      else split_runs l' (c :: cur) false
  end.

Fixpoint drop_ws (l : list ascii) : list ascii :=
  match l with
  | [] => []
  | c :: l' => if is_ws c then drop_ws l' else l
  end.

(** [s.trim()]. *)
Definition trim (l : list ascii) : list ascii := rev (drop_ws (rev (drop_ws l))).

(** [text.split(/[.!?]+/).filter(s => s.trim().length > 0)]. *)
Definition sentences (text : list ascii) : list (list ascii) :=
  filter (fun s => Nat.ltb 0 (length (trim s))) (split_runs text [] false).

Module GChunk.
(** A chunk as the Gemini-side chunkers build it. *)
Record t := mk {
  index : nat;
  text : string;
  filtered : bool;
  section_type : jval;
  filter_reason : option string
}.
End GChunk.

Definition dot_space : list ascii := ["."%char; " "%char].

(** The loop of [fallbackChunking] over the remaining sentences, with the
    chunk being built ([currentChunk]) and the next index ([chunkIndex]). *)
Fixpoint fb_loop (ss : list (list ascii)) (current : list ascii) (idx : nat) : list GChunk.t :=
  match ss with
  | [] =>
      if Nat.ltb 0 (length (trim current))
      then [GChunk.mk idx (string_of_list_ascii (trim current)) false (JStr "body") None]
      else []
  | sentence :: ss' =>
      if Nat.ltb 1000 (length (current ++ sentence)%list) && Nat.ltb 0 (length current)
      then GChunk.mk idx (string_of_list_ascii (trim current)) false (JStr "body") None
           :: fb_loop ss' (sentence ++ dot_space)%list (S idx)
      else fb_loop ss' (current ++ sentence ++ dot_space)%list idx
  end.

(** [fallbackChunking(text)] with [chunkSize = 1000]. *)
Definition fallbackChunking (text : string) : list GChunk.t :=
  fb_loop (sentences (list_ascii_of_string text)) [] 0.

(** A group of sentences as the loop concatenates them. *)
Definition dots (g : list (list ascii)) : list ascii :=
  List.concat (map (fun s => s ++ dot_space)%list g).

(* ------------------------------------------------------------------ *)
(** ** chunkTextWithGemini (gemini-processor) *)

Fixpoint drop_until (c : ascii) (l : list ascii) : list ascii :=
  match l with
  | [] => []
  | x :: l' => if Ascii.eqb x c then l else drop_until c l'
  end.

(** [response.match(/\[[\s\S]*\]/)]: from the first [[] to the last []]
    after it. *)
Definition match_array (l : list ascii) : option (list ascii) :=
  match drop_until "["%char l with
  | [] => None
  | rest =>
      match drop_until "]"%char (rev rest) with
      | [] => None
      | r => Some (rev r)
      end
  end.

Definition trim_str (s : string) : string :=
  string_of_list_ascii (trim (list_ascii_of_string s)).

Section Chunking.

(** The JS builtin [JSON.parse]; [None] when it throws a SyntaxError. *)
Variable json_parse : string -> option jval.

(** [chunks.map((chunk, idx) => ...)]: [chunk.text.trim()] throws unless
    [text] is a string, which aborts the whole map. *)
Fixpoint clean_chunks (idx : nat) (xs : list jval) : option (list GChunk.t) :=
  match xs with
  | [] => Some []
  | x :: xs' =>
      match jget "text" x with
      | Some (JStr t) =>
          match clean_chunks (S idx) xs' with
          | Some cs =>
              Some (GChunk.mk idx (trim_str t) false
                      (match jget "section_type" x with
                       | Some v => if truthy v then v else JStr "body"
                       | None => JStr "body"
                       end) None :: cs)
          | None => None
          end
      | _ => None
      end
  end.

(** [chunkTextWithGemini(text, docType)]; [answer] is the model's text
    answer, or the error [generateContent] rejects with.  Every failure
    falls back to [fallbackChunking(text)]. *)
Definition chunkTextWithGemini (text : string) (answer : outcome string) : list GChunk.t :=
  match answer with
  | Throw _ => fallbackChunking text
  | Ret response =>
      match match_array (list_ascii_of_string response) with
      | None => fallbackChunking text
      | Some m =>
          match json_parse (string_of_list_ascii m) with
          | Some (JArr xs) =>
              match clean_chunks 0 xs with
              | Some cs => filter (fun c => Nat.ltb 50 (String.length c.(GChunk.text))) cs
              | None => fallbackChunking text
              end
          | _ => fallbackChunking text
          end
      end
  end.

End Chunking.

(* ------------------------------------------------------------------ *)
(** ** removeAppendices and removeCoverPages (gemini-processor) *)

(** ASCII case folding, as the [i] flag and [toLowerCase] act on ASCII. *)
Definition lower (c : ascii) : ascii :=
  let n := nat_of_ascii c in
  if Nat.leb 65 n && Nat.leb n 90 then ascii_of_nat (n + 32) else c.

(** [l] starts with the lower-case pattern [p], ignoring case. *)
Fixpoint starts_ci (p l : list ascii) : bool :=
  match p, l with
  | [], _ => true
  | c :: p', x :: l' => Ascii.eqb (lower x) c && starts_ci p' l'
  | _ :: _, [] => false
  end.

(** [l.toLowerCase().includes(p)] for a lower-case pattern [p]. *)
Fixpoint occurs_ci (p l : list ascii) : bool :=
  starts_ci p l || match l with [] => false | _ :: l' => occurs_ci p l' end.

Definition appendix_word : list ascii := list_ascii_of_string "appendix".

(** [text.replace(/appendix[\s\S]*$/i, '')]: everything from the first
    match on is removed. *)
Fixpoint cut_at_appendix (l : list ascii) : list ascii :=
  match l with
  | [] => []
  | c :: l' => if starts_ci appendix_word l then [] else c :: cut_at_appendix l'
  end.

Definition removeAppendices (text : string) : string :=
  string_of_list_ascii (cut_at_appendix (list_ascii_of_string text)).

Definition nl : ascii := ascii_of_nat 10.

(** [text.split('\n')]. *)
Fixpoint split_lines (l : list ascii) : list (list ascii) :=
  match l with
  | [] => [[]]
  | c :: l' =>
      if Ascii.eqb c nl then [] :: split_lines l'
      else match split_lines l' with
           | x :: xs => (c :: x) :: xs
           | [] => [[c]]
           end
  end.

(** [lines.join('\n')]. *)
Fixpoint join_lines (ls : list (list ascii)) : list ascii :=
  match ls with
  | [] => []
  | x :: xs => match xs with [] => x | _ => (x ++ nl :: join_lines xs)%list end
  end.

Definition is_digit (c : ascii) : bool :=
  Nat.leb 48 (nat_of_ascii c) && Nat.leb (nat_of_ascii c) 57.

(** [/^\s*\d+\s*$/.test(line)]: the line is digits between whitespace, that
    is its trimmed form is a non-empty run of digits. *)
Definition page_number (line : list ascii) : bool :=
  Nat.ltb 0 (length (trim line)) && forallb is_digit (trim line).

(** The predicate given to [lines.findIndex]. *)
Definition content_line (line : list ascii) : bool :=
  Nat.ltb 0 (length (trim line))
  && negb (occurs_ci (list_ascii_of_string "cover") line)
  && negb (occurs_ci (list_ascii_of_string "title") line)
  && negb (page_number line).

(** [findIndex]; [None] stands for [-1]. *)
Fixpoint find_index {A} (f : A -> bool) (xs : list A) : option nat :=
  match xs with
  | [] => None
  | x :: xs' => if f x then Some 0 else option_map S (find_index f xs')
  end.

(** [xs.slice(start)] for [start = findIndex(...)]: [slice(-1)] is the last
    element. *)
Definition slice_from {A} (start : option nat) (xs : list A) : list A :=
  match start with
  | Some n => skipn n xs
  | None => match rev xs with [] => [] | x :: _ => [x] end
  end.

Definition removeCoverPages (text : string) : string :=
  let lines := split_lines (list_ascii_of_string text) in
  string_of_list_ascii (join_lines (slice_from (find_index content_line lines) lines)).

(* ------------------------------------------------------------------ *)
(** ** uploadDocument (gemini-processor) *)

Module File.
(** The browser [File] fields the upload reads. *)
Record t := mk { name : string; size : nat; type : string }.
End File.

(** The characters [/[^a-zA-Z0-9.-]/] does not replace. *)
Definition name_char (c : ascii) : bool :=
  let n := nat_of_ascii c in
  (Nat.leb 97 n && Nat.leb n 122) || (Nat.leb 65 n && Nat.leb n 90)
  || (Nat.leb 48 n && Nat.leb n 57) || Nat.eqb n 46 || Nat.eqb n 45.

(** [name.replace(/[^a-zA-Z0-9.-]/g, '_')], one character per code unit. *)
Fixpoint sanitize (s : string) : string :=
  match s with
  | EmptyString => EmptyString
  | String c s' => String (if name_char c then c else "_"%char) (sanitize s')
  end.

(** [if (sourceUrl)]. *)
Definition url_truthy (u : option string) : bool :=
  match u with Some x => negb (String.eqb x "") | None => false end.

(** [.eq('doc_type', docType).eq('source_url', sourceUrl)]. *)
Definition same_source (docType : string) (sourceUrl : option string) (d : Doc.t) : bool :=
  String.eqb d.(Doc.doc_type) docType
  && match d.(Doc.source_url), sourceUrl with
     | Some x, Some y => String.eqb x y
     | _, _ => false
     end.

(** The store together with the paths of the objects in the [documents]
    storage bucket. *)
Definition upload_state : Type := (db * list string)%type.

Section Upload.

(** [MAX_FILE_SIZE] and [ALLOWED_MIME_TYPES] of the shared types module. *)
Variable MAX_FILE_SIZE : nat.
Variable ALLOWED_MIME_TYPES : list string.
(** [getPublicUrl(path)]. *)
Variable public_url : string -> string.
(** The values the [documents] table gives the columns the insert omits. *)
Variable column_defaults : Doc.t.

(** [uploadDocument(file, docType, sourceUrl)]: [timestamp] is [Date.now()],
    [uploadError] the storage's answer to the upload, [session] the user of
    the current session, [docError] the store's answer to the insert; the
    new row's id is drawn from [next_id]. *)
Definition uploadDocument (file : File.t) (docType : string) (sourceUrl : option string)
    (timestamp : nat) (uploadError session docError : option string) (st : upload_state)
    : upload_state * outcome (string * string) :=
  let (s, storage) := st in
  if url_truthy sourceUrl
     && match single (filter (same_source docType sourceUrl) s.(documents)) with
        | Some _ => true
        | None => false
        end
  then (st, Throw "This document has already been uploaded for this knowledge base.")
  else if Nat.ltb MAX_FILE_SIZE file.(File.size)
  then (st, Throw "File size exceeds 50MB limit")
  else if negb (existsb (String.eqb file.(File.type)) ALLOWED_MIME_TYPES)
  then (st, Throw "File type not supported. Please upload PDF, DOCX, or TXT files.")
  else
    let filename := nat_to_string timestamp ++ "-" ++ sanitize file.(File.name) in
    let path := "uploads/" ++ filename in
    match uploadError with
    | Some e => (st, Throw ("Upload failed: " ++ e))
    | None =>
        let storage' := app storage [path] in
        let publicUrl := public_url path in
        match session with
        | None => ((s, storage'), Throw "User not authenticated")
        | Some user =>
            match docError with
            | Some e => ((s, storage'), Throw ("Failed to create document record: " ++ e))
            | None =>
                let id := "doc-" ++ nat_to_string s.(next_id) in
                let row := Doc.mk id filename (Some file.(File.name)) docType publicUrl
                             (Some user)
                             (match sourceUrl with Some u => or_null u | None => None end)
                             PPending column_defaults.(Doc.total_chunks)
                             column_defaults.(Doc.approved_chunks)
                             column_defaults.(Doc.rejected_chunks)
                             column_defaults.(Doc.error_message)
                             column_defaults.(Doc.metadata) in
                ((set_next_id (set_documents s (app s.(documents) [row])) (S s.(next_id)),
                  storage'),
                 Ret (publicUrl, id))
            end
        end
    end.

End Upload.

(* ------------------------------------------------------------------ *)
(** ** From chunkTextWithGemini to processAndStoreDocument *)

(** The fields of a Gemini-side chunk that [processAndStoreDocument] reads. *)
Definition flowise_of_gchunk (c : GChunk.t) : FlowiseChunk :=
  mkFlowiseChunk c.(GChunk.text) c.(GChunk.filtered) c.(GChunk.filter_reason).

(* ------------------------------------------------------------------ *)
(** ** enrichDocumentChunks (gemini-processor) *)

Section EnrichBatch.

Variable json_parse : string -> option jval.

(** The awaited calls of the [for] loop; [responses] gives the Flow 2
    outcome for each chunk id. *)
Fixpoint enrich_all (now : string) (flow2Configured : bool)
    (responses : string -> flowise_response) (cs : list Chunk.t) : M unit :=
  match cs with
  | [] => ret tt
  | c :: cs' =>
      enrichChunkMetadata json_parse c.(Chunk.id) now flow2Configured (responses c.(Chunk.id)) ;;;
      enrich_all now flow2Configured responses cs'
  end.

(** [.eq('document_id', documentId).eq('review_status', 'pending').is('ai_metadata', null)]. *)
Definition enrich_eligible (documentId : string) (c : Chunk.t) : bool :=
  chunk_by_doc documentId c && chunk_is_pending c
  && match c.(Chunk.ai_metadata) with None => true | Some _ => false end.

(** [enrichDocumentChunks(documentId, docType, limit)]; [fetchError] is the
    store's answer to the select, whose [.limit(limit)] rows are taken in
    table order. *)
Definition enrichDocumentChunks (documentId : string) (limit : nat) (now : string)
    (flow2Configured : bool) (responses : string -> flowise_response)
    (fetchError : option string) : M nat :=
  match fetchError with
  | Some _ => ret 0
  | None =>
      s <- get ;;
      let chunks := firstn limit (filter (enrich_eligible documentId) s.(document_chunks)) in
      enrich_all now flow2Configured responses chunks ;;;
      ret (length chunks)
  end.

End EnrichBatch.

(* ------------------------------------------------------------------ *)
(** ** getDocumentStats (gemini-processor) *)

Module Stats.
(** [DocumentStats]. *)
Record t := mk { total : nat; approved : nat; rejected : nat; pending : nat; filtered : nat }.
End Stats.

(** [getDocumentStats(documentId)]; [chunksError] is the store's answer to
    the chunk select, after which [chunks] is [null]. *)
Definition getDocumentStats (s : db) (documentId : string) (chunksError : option string) : Stats.t :=
  let doc := single (filter (doc_by_id documentId) s.(documents)) in
  let chunks :=
    match chunksError with
    | Some _ => None
    | None => Some (filter (chunk_by_doc documentId) s.(document_chunks))
    end in
  let count st :=
    match chunks with
    | Some cs => length (filter (fun c => review_status_eqb c.(Chunk.review_status) st) cs)
    | None => 0
    end in
  Stats.mk
    (match doc with Some d => d.(Doc.total_chunks) | None => 0 end)
    (match doc with Some d => d.(Doc.approved_chunks) | None => 0 end)
    (match doc with Some d => d.(Doc.rejected_chunks) | None => 0 end)
    (count RPending) (count RFiltered).

(* ------------------------------------------------------------------ *)
(** ** deleteDocument (gemini-processor) *)

(** The row delete with what the code's comment says it cascades to: the
    document's chunks and vectors. *)
Definition delete_document (documentId : string) (s : db) : db :=
  mkDb (filter (fun d => negb (doc_by_id documentId d)) s.(documents))
       (filter (fun c => negb (chunk_by_doc documentId c)) s.(document_chunks))
       (filter (fun v => negb (String.eqb v.(Vec.document_id) documentId)) s.(kb_vectors))
       s.(curation_queue) s.(profiles) s.(next_id).

(** [deleteDocument(documentId)]: [session] is the session's user,
    [deleteError] the store's answer to the delete. *)
Definition deleteDocument (session : option string) (documentId : string)
    (deleteError : option string) (st : upload_state) : upload_state * outcome unit :=
  let (s, storage) := st in
  match session with
  | None => (st, Throw "Unauthorized")
  | Some uid =>
      match single (filter (fun p => String.eqb p.(Profile.id) uid) s.(profiles)) with
      | Some p =>
          if user_role_eqb p.(Profile.role) Admin then
            let storage' :=
              match single (filter (doc_by_id documentId) s.(documents)) with
              | Some d =>
                  filter (fun o => negb (String.eqb o ("uploads/" ++ d.(Doc.filename)))) storage
              | None => storage
              end in
            match deleteError with
            | Some e => ((s, storage'), Throw ("Failed to delete document: " ++ e))
            | None => ((delete_document documentId s, storage'), Ret tt)
            end
          else (st, Throw "Admin privileges required")
      | None => (st, Throw "Admin privileges required")
      end
  end.

(* ------------------------------------------------------------------ *)
(** ** ensureAdmin and approveDocument (admin API) *)

(** [ensureAdmin()]: [session] is the session's user. *)
Definition ensureAdmin (session : option string) : M unit :=
  match session with
  | None => throw "Unauthorized"
  | Some uid =>
      s <- get ;;
      match single (filter (fun p => String.eqb p.(Profile.id) uid) s.(profiles)) with
      | None => throw "Failed to verify admin privileges"
      | Some p =>
          if user_role_eqb p.(Profile.role) Admin then ret tt
          else throw "Admin privileges required"
      end
  end.

(** [approveDocument(documentId)]: the same updates as the edge function's
    [approve-document] branch, after [ensureAdmin]. *)
Definition approveDocument (session : option string) (documentId : string)
    (docError : option string) : M unit :=
  ensureAdmin session ;;;
  approve_document documentId docError ;;;
  ret tt.

(* ------------------------------------------------------------------ *)
(** ** Chunk navigation of useCurator

    The index state and [chunks.length] as JS numbers; each state update is
    applied before the next call. *)






(* ------------------------------------------------------------------ *)
(** ** Observations on the store *)

Definition doc_row (s : db) (x : string) : option Doc.t :=
  single (filter (doc_by_id x) s.(documents)).

Definition doc_status (s : db) (x : string) : option processing_status :=
  option_map Doc.processing_status (doc_row s x).

Definition chunk_row (s : db) (x : string) : option Chunk.t :=
  single (filter (chunk_by_id x) s.(document_chunks)).

Definition vectors_of (s : db) (chunkId : string) : nat :=
  length (filter (fun v => String.eqb v.(Vec.chunk_id) chunkId) s.(kb_vectors)).

(** The value an operation resolved with ([d] when it threw). *)
Definition returned {A} (d : A) (r : db * outcome A) : A :=
  match snd r with Ret a => a | Throw _ => d end.

(** [isAdmin]-style check the edge function performs on the caller. *)
Definition caller_is_admin (s : db) (authUser : option string) : bool :=
  match authUser with
  | None => false
  | Some uid =>
      match single (filter (fun p => String.eqb p.(Profile.id) uid) s.(profiles)) with
      | Some p => user_role_eqb p.(Profile.role) Admin
      | None => false
      end
  end.

(* ------------------------------------------------------------------ *)
(** ** A small store for examples *)

Definition mk_doc (i : string) (st : processing_status) (src : option string) : Doc.t :=
  Doc.mk i "report.pdf" (Some "Report.pdf") "vbc" ("uploads/" ++ i) (Some "u1") src st
    0 0 0 None [].

Definition mk_chunk (i d : string) (idx : nat) (st : review_status) (meta : option obj) : Chunk.t :=
  Chunk.mk i d idx "Value based care." 17 (review_status_eqb st RFiltered) None st meta
    None None None None.

Definition sample_profiles : list Profile.t :=
  [Profile.mk "u1" (Some "Ada") Curator true; Profile.mk "a1" (Some "Root") Admin true].

Definition sample_db : db :=
  mkDb [mk_doc "d1" PReview (Some "https://x")]
       [mk_chunk "c1" "d1" 0 RApproved None; mk_chunk "c2" "d1" 1 RApproved None;
        mk_chunk "c3" "d1" 2 RPending None]
       [] [Queue.mk "q1" "vbc" "https://x" QInProgress] sample_profiles 10.

Definition failed_doc_db : db :=
  mkDb [mk_doc "d9" PFailed None] [] [] [] sample_profiles 0.

Definition active_count (chunks : list FlowiseChunk) : nat :=
  length (filter (fun c => negb c.(filtered)) chunks).

Definition insert_status (c : FlowiseChunk) : review_status :=
  if c.(filtered) then RFiltered else RPending.

Definition five_chunks : list FlowiseChunk :=
  [mkFlowiseChunk "Intro to value based care." false None;
   mkFlowiseChunk "Table of contents" true (Some "toc");
   mkFlowiseChunk "Bundled payments." false None;
   mkFlowiseChunk "Shared savings." false None;
   mkFlowiseChunk "Quality measures." false None].

Definition upload_db : db :=
  mkDb [mk_doc "d2" PPending None] [] [] [] sample_profiles 0.

(** The document ended [failed] with [msg] as its error message. *)
Definition failed_with (s : db) (documentId msg : string) : Prop :=
  doc_status s documentId = Some PFailed
  /\ option_map Doc.error_message (doc_row s documentId) = Some (Some msg).

(** A chunk that was approved already, approved again. *)
Definition approve_again_db : db :=
  fst (approveChunk "c1" "ok" "u1" "t1" None None sample_db).

(** A document with a chunk filtered at insertion. *)
Definition filtered_db : db :=
  mkDb [mk_doc "d3" PReview None]
       [mk_chunk "f1" "d3" 0 RFiltered None; mk_chunk "p1" "d3" 1 RPending None]
       [] [] sample_profiles 0.

Definition existing_meta (c : Chunk.t) : obj :=
  match c.(Chunk.ai_metadata) with Some m => m | None => [] end.

(** A chunk that already carries metadata. *)
Definition enrich_db : db :=
  mkDb [mk_doc "d4" PReview None]
       [mk_chunk "e1" "d4" 0 RPending (Some [("topic", JStr "Billing"); ("last_updated", JStr "t0")])]
       [] [] sample_profiles 0.

(** A Flow 2 answer whose explicit confidence is 0. *)
Definition zero_confidence_answer : flowise_response :=
  FlowOk [("metadata", JObj [("topic", JStr "Billing"); ("use_cases", JArr []);
                             ("relevance_score", JNum (4 # 5)); ("confidence", JNum 0)])].

(** The queue rows the request marks completed for document [d]. *)
Definition queue_hit (d : Doc.t) (q : Queue.t) : bool :=
  match d.(Doc.source_url) with
  | Some u => negb (String.eqb u "") && queue_match u d.(Doc.doc_type) q
  | None => false
  end.

Example sample_submit_blocked :
  submitDocument "d1" None None sample_db
  = (sample_db, Throw "Cannot submit: 1 chunks are still pending or in draft.").
Proof. reflexivity. Qed.

Example sample_word_count :
  word_count "  a  bc d " = 3 /\ word_count "   " = 1.
Proof. split; reflexivity. Qed.

(* ------------------------------------------------------------------ *)
(** ** General lemmas *)

Lemma filter_update_where {A} (p : A -> bool) (f : A -> A) (l : list A) :
  (forall r, p (f r) = p r) ->
  filter p (update_where p f l) = map f (filter p l).
Proof.
  intros Hf; induction l as [|a l IH]; simpl; [reflexivity|].
  destruct (p a) eqn:E; simpl.
  - rewrite Hf, E; simpl; f_equal; exact IH.
  - rewrite E; exact IH.
Qed.

Lemma update_where_false {A} (p : A -> bool) (f : A -> A) (l : list A) :
  (forall r, In r l -> p r = false) -> update_where p f l = l.
Proof.
  induction l as [|a l IH]; simpl; intros H; [reflexivity|].
  rewrite (H a (or_introl eq_refl)); f_equal; apply IH; auto.
Qed.

Lemma single_map {A} (f : A -> A) (r : A) : single (map f [r]) = Some (f r).
Proof. reflexivity. Qed.

Lemma contains_middle (a t b : string) : contains (a ++ t ++ b) t.
Proof. exists a, b; reflexivity. Qed.

Ltac run_monad :=
  unfold bind, ret, throw, get, modify, try_catch, lift in *; simpl in *.

(* ------------------------------------------------------------------ *)
(** ** submitDocument *)

Lemma submitDocument_success (s : db) (documentId : string) :
  blocking_count s documentId = 0 ->
  submitDocument documentId None None s
  = (set_documents s (update_where (doc_by_id documentId) (doc_set_status PSubmitted)
                        s.(documents)), Ret tt).
Proof.
  unfold blocking_count, submitDocument; run_monad; intros H; rewrite H; reflexivity.
Qed.

Lemma submitDocument_blocked (s : db) (documentId : string) (fe : option string)
    (ue : option string) (n : nat) :
  fe = None -> blocking_count s documentId = S n ->
  submitDocument documentId fe ue s = (s, Throw (submit_message (S n))).
Proof.
  unfold blocking_count, submitDocument; intros -> H; run_monad; rewrite H; reflexivity.
Qed.

Lemma doc_row_set_status (s : db) (documentId : string) (d : Doc.t) (st : processing_status) :
  filter (doc_by_id documentId) s.(documents) = [d] ->
  doc_row (set_documents s (update_where (doc_by_id documentId) (doc_set_status st)
                              s.(documents))) documentId
  = Some (doc_set_status st d).
Proof.
  intros Hd; unfold doc_row, set_documents; simpl.
  rewrite filter_update_where by reflexivity; rewrite Hd; reflexivity.
Qed.

(** C1: with a working store, [submitDocument] succeeds and leaves the
    document [submitted] exactly when none of its chunks is pending, draft
    or enriching; otherwise it throws a message carrying the number of
    blocking chunks and changes nothing. *)
Theorem submitDocument_iff_no_blocking (s : db) (documentId : string) (d : Doc.t)
    (Hd : filter (doc_by_id documentId) s.(documents) = [d]) :
  ((exists s', submitDocument documentId None None s = (s', Ret tt)
               /\ doc_status s' documentId = Some PSubmitted)
   <-> blocking_count s documentId = 0)
  /\ (forall n updateError, blocking_count s documentId = S n ->
        exists msg, submitDocument documentId None updateError s = (s, Throw msg)
                    /\ contains msg (nat_to_string (S n))
                    /\ doc_status s documentId = Some d.(Doc.processing_status)).
Proof.
  split.
  - split.
    + intros [s' [Hrun _]].
      destruct (blocking_count s documentId) as [|n] eqn:Hb; [reflexivity|].
      rewrite (submitDocument_blocked s documentId None None n eq_refl Hb) in Hrun.
      discriminate Hrun.
    + intros Hb; rewrite (submitDocument_success s documentId Hb).
      eexists; split; [reflexivity|].
      unfold doc_status; rewrite (doc_row_set_status s documentId d PSubmitted Hd).
      reflexivity.
  - intros n ue Hb; exists (submit_message (S n)); split; [|split].
    + exact (submitDocument_blocked s documentId None ue n eq_refl Hb).
    + apply contains_middle.
    + unfold doc_status, doc_row; rewrite Hd; reflexivity.
Qed.

Lemma submitDocument_iff_no_blocking_witness :
  filter (doc_by_id "d1") sample_db.(documents) = [mk_doc "d1" PReview (Some "https://x")]
  /\ exists msg, submitDocument "d1" None None sample_db = (sample_db, Throw msg)
                /\ contains msg "1".
Proof.
  split; [reflexivity|].
  destruct (submitDocument_iff_no_blocking sample_db "d1"
              (mk_doc "d1" PReview (Some "https://x")) eq_refl) as [_ H].
  destruct (H 0 None eq_refl) as [msg [H1 [H2 _]]].
  exists msg; split; [exact H1 | exact H2].
Defined.

(** C10: [submitDocument] does not read the document's own status: with a
    working store and no chunk pending, draft or enriching (in particular
    with no chunk at all), a document in any status becomes [submitted];
    the call throws only on blocking chunks or a store error. *)
Theorem submitDocument_any_status (s : db) (documentId : string) (d : Doc.t)
    (Hd : filter (doc_by_id documentId) s.(documents) = [d])
    (Hb : blocking_count s documentId = 0) :
  (exists s', submitDocument documentId None None s = (s', Ret tt)
              /\ doc_row s' documentId = Some (doc_set_status PSubmitted d)
              /\ doc_status s' documentId = Some PSubmitted)
  /\ (forall fetchError updateError s' msg,
        submitDocument documentId fetchError updateError s = (s', Throw msg) ->
        fetchError <> None \/ updateError <> None).
Proof.
  split.
  - rewrite (submitDocument_success s documentId Hb).
    eexists; split; [reflexivity|].
    unfold doc_status; rewrite (doc_row_set_status s documentId d PSubmitted Hd).
    split; reflexivity.
  - intros fe ue s' msg.
    destruct fe as [e|]; [left; discriminate|].
    destruct ue as [e|]; [right; discriminate|].
    rewrite (submitDocument_success s documentId Hb); discriminate.
Qed.

Lemma no_chunks_no_blocking (s : db) (documentId : string) :
  filter (chunk_by_doc documentId) s.(document_chunks) = [] -> blocking_count s documentId = 0.
Proof. unfold blocking_count; intros ->; reflexivity. Qed.

Lemma submitDocument_any_status_witness :
  filter (doc_by_id "d9") failed_doc_db.(documents) = [mk_doc "d9" PFailed None]
  /\ blocking_count failed_doc_db "d9" = 0
  /\ exists s', submitDocument "d9" None None failed_doc_db = (s', Ret tt)
                /\ doc_status s' "d9" = Some PSubmitted.
Proof.
  assert (Hb : blocking_count failed_doc_db "d9" = 0) by (apply no_chunks_no_blocking; reflexivity).
  split; [reflexivity|split; [exact Hb|]].
  destruct (submitDocument_any_status failed_doc_db "d9" (mk_doc "d9" PFailed None) eq_refl Hb)
    as [[s' [H1 [_ H3]]] _].
  exists s'; split; [exact H1 | exact H3].
Defined.

(* ------------------------------------------------------------------ *)
(** ** processAndStoreDocument *)

Lemma build_inserts_status (documentId : string) (document : option Doc.t)
    (uploaderName : option string) (now : string) (chunks : list FlowiseChunk) :
  forall fresh idx,
    map Chunk.review_status (build_inserts documentId document uploaderName now fresh idx chunks)
    = map insert_status chunks.
Proof.
  induction chunks as [|c cs IH]; intros fresh idx; simpl; [reflexivity|].
  f_equal; apply IH.
Qed.

Lemma build_inserts_owner (documentId : string) (document : option Doc.t)
    (uploaderName : option string) (now : string) (chunks : list FlowiseChunk) :
  forall fresh idx,
    Forall (fun r => r.(Chunk.document_id) = documentId)
      (build_inserts documentId document uploaderName now fresh idx chunks).
Proof.
  induction chunks as [|c cs IH]; intros fresh idx; simpl; constructor; auto.
Qed.

(** C5: once the gateway answers a non-empty chunk list and the batch
    insert succeeds, the document is in [review] with [total_chunks] the
    number of unfiltered chunks, and each gateway chunk is inserted for the
    document, [filtered] when flagged and [pending] otherwise. *)
Theorem processAndStoreDocument_review (s : db) (documentId storageUrl docType now : string)
    (filters : list string) (chunks : list FlowiseChunk) (d : Doc.t)
    (Hd : filter (doc_by_id documentId) s.(documents) = [d])
    (Hne : chunks <> []) :
  exists s' inserted,
    processAndStoreDocument documentId storageUrl docType filters now (Ret chunks) None s
      = (s', Ret (active_count chunks))
    /\ doc_status s' documentId = Some PReview
    /\ option_map Doc.total_chunks (doc_row s' documentId) = Some (active_count chunks)
    /\ s'.(document_chunks) = app s.(document_chunks) inserted
    /\ map Chunk.review_status inserted = map insert_status chunks
    /\ Forall (fun r => r.(Chunk.document_id) = documentId) inserted.
Proof.
  destruct chunks as [|c cs]; [contradiction Hne; reflexivity|].
  unfold processAndStoreDocument, bind, ret, throw, get, modify, try_catch, lift.
  cbn [Nat.eqb length].
  set (s1 := set_documents s (update_where (doc_by_id documentId) (doc_set_processing _)
                                 s.(documents))).
  do 2 eexists; split; [reflexivity|].
  unfold doc_status, doc_row, s1, set_documents, set_next_id, set_chunks; cbn [documents document_chunks].
  rewrite !filter_update_where by reflexivity; rewrite Hd.
  split; [reflexivity|]. split; [reflexivity|]. split; [reflexivity|].
  split; [apply build_inserts_status | apply build_inserts_owner].
Qed.

(** The scenario of the spec: five gateway chunks, one filtered. *)
Example five_chunks_scenario :
  let r := processAndStoreDocument "d2" "https://store/d2" "vbc" ["toc"] "t0"
             (Ret five_chunks) None upload_db in
  snd r = Ret 4
  /\ doc_status (fst r) "d2" = Some PReview
  /\ option_map Doc.total_chunks (doc_row (fst r) "d2") = Some 4
  /\ map Chunk.review_status (filter (chunk_by_doc "d2") (fst r).(document_chunks))
     = [RPending; RFiltered; RPending; RPending; RPending].
Proof. vm_compute. repeat split. Qed.

Lemma processAndStoreDocument_review_witness :
  filter (doc_by_id "d2") upload_db.(documents) = [mk_doc "d2" PPending None]
  /\ five_chunks <> []
  /\ exists s' inserted,
       processAndStoreDocument "d2" "https://store/d2" "vbc" ["toc"] "t0"
         (Ret five_chunks) None upload_db = (s', Ret 4)
       /\ doc_status s' "d2" = Some PReview
       /\ map Chunk.review_status inserted = [RPending; RFiltered; RPending; RPending; RPending].
Proof.
  assert (Hne : five_chunks <> []) by discriminate.
  split; [reflexivity|split; [exact Hne|]].
  destruct (processAndStoreDocument_review upload_db "d2" "https://store/d2" "vbc" "t0" ["toc"]
              five_chunks (mk_doc "d2" PPending None) eq_refl Hne)
    as [s' [ins [H1 [H2 [_ [_ [H5 _]]]]]]].
  exists s', ins; split; [exact H1|split; [exact H2|exact H5]].
Defined.

Ltac solve_failed Hd :=
  unfold failed_with, doc_status, doc_row, set_documents; cbn [documents];
  rewrite !filter_update_where by reflexivity; rewrite Hd; split; reflexivity.

(** C6: when the gateway rejects, answers no chunk, or the batch insert
    fails, [processAndStoreDocument] rethrows the failure reason, the
    document is [failed] with that reason as [error_message] (so it did not
    reach [review]), and no chunk row was added. *)
Theorem processAndStoreDocument_failed (s : db) (documentId storageUrl docType now : string)
    (filters : list string) (d : Doc.t)
    (Hd : filter (doc_by_id documentId) s.(documents) = [d]) :
  (forall e chunksError, exists s',
     processAndStoreDocument documentId storageUrl docType filters now (Throw e) chunksError s
       = (s', Throw e)
     /\ failed_with s' documentId e /\ s'.(document_chunks) = s.(document_chunks))
  /\ (forall chunksError, exists s',
     processAndStoreDocument documentId storageUrl docType filters now (Ret []) chunksError s
       = (s', Throw "No chunks returned from document processing")
     /\ failed_with s' documentId "No chunks returned from document processing"
     /\ s'.(document_chunks) = s.(document_chunks))
  /\ (forall chunks e, chunks <> [] -> exists s',
     processAndStoreDocument documentId storageUrl docType filters now (Ret chunks) (Some e) s
       = (s', Throw ("Failed to insert chunks: " ++ e))
     /\ failed_with s' documentId ("Failed to insert chunks: " ++ e)
     /\ s'.(document_chunks) = s.(document_chunks)).
Proof.
  split; [|split].
  - intros e ce; eexists; split; [reflexivity|].
    split; [solve_failed Hd | reflexivity].
  - intros ce; eexists; split; [reflexivity|].
    split; [solve_failed Hd | reflexivity].
  - intros chunks e Hne; destruct chunks as [|c cs]; [contradiction Hne; reflexivity|].
    eexists; split; [reflexivity|].
    split; [solve_failed Hd | reflexivity].
Qed.

Lemma processAndStoreDocument_failed_witness :
  filter (doc_by_id "d2") upload_db.(documents) = [mk_doc "d2" PPending None]
  /\ exists s', processAndStoreDocument "d2" "https://store/d2" "vbc" [] "t0"
                  (Ret five_chunks) (Some "timeout") upload_db
                = (s', Throw "Failed to insert chunks: timeout")
                /\ failed_with s' "d2" "Failed to insert chunks: timeout".
Proof.
  split; [reflexivity|].
  destruct (processAndStoreDocument_failed upload_db "d2" "https://store/d2" "vbc" "t0" []
              (mk_doc "d2" PPending None) eq_refl) as [_ [_ H]].
  destruct (H five_chunks "timeout" ltac:(discriminate)) as [s' [H1 [H2 _]]].
  exists s'; split; [exact H1 | exact H2].
Defined.

(* ------------------------------------------------------------------ *)
(** ** approveChunk, rejectChunk, saveChunkDraft, getChunksForReview *)

Lemma vectors_of_app (vs : list Vec.t) (chunkId : string) (v : Vec.t) :
  v.(Vec.chunk_id) = chunkId ->
  length (filter (fun v => String.eqb v.(Vec.chunk_id) chunkId) (app vs [v]))
  = S (length (filter (fun v => String.eqb v.(Vec.chunk_id) chunkId) vs)).
Proof.
  intros Hv; rewrite filter_app, length_app; simpl.
  rewrite Hv, String.eqb_refl; simpl; lia.
Qed.

Lemma chunk_row_update (s : db) (chunkId : string) (c : Chunk.t) (f : Chunk.t -> Chunk.t) :
  filter (chunk_by_id chunkId) s.(document_chunks) = [c] ->
  (forall r, chunk_by_id chunkId (f r) = chunk_by_id chunkId r) ->
  single (filter (chunk_by_id chunkId) (update_where (chunk_by_id chunkId) f s.(document_chunks)))
  = Some (f c).
Proof. intros Hc Hf; rewrite filter_update_where by exact Hf; rewrite Hc; reflexivity. Qed.

(** What one [approveChunk] call does, whatever the chunk's status. *)
Lemma approveChunk_effect (s : db) (chunkId curatorNotes userId now : string) (c : Chunk.t)
    (Hc : filter (chunk_by_id chunkId) s.(document_chunks) = [c]) :
  (exists s', approveChunk chunkId curatorNotes userId now None None s = (s', Ret tt)
              /\ option_map Chunk.review_status (chunk_row s' chunkId) = Some RApproved
              /\ vectors_of s' chunkId = S (vectors_of s chunkId))
  /\ (forall e, exists s', approveChunk chunkId curatorNotes userId now None (Some e) s
                           = (s', Ret tt)
              /\ option_map Chunk.review_status (chunk_row s' chunkId) = Some RApproved
              /\ vectors_of s' chunkId = vectors_of s chunkId).
Proof.
  split; [|intros e];
  (unfold approveChunk, bind, ret, get, modify; rewrite Hc; cbv beta iota;
   eexists; split; [reflexivity|]; unfold chunk_row, vectors_of, set_documents, set_vectors,
   set_chunks; cbn [document_chunks kb_vectors];
   rewrite chunk_row_update with (c := c) by (exact Hc || reflexivity); split; [reflexivity|]).
  - apply vectors_of_app; reflexivity.
  - reflexivity.
Qed.

(** What one [rejectChunk] call does, whatever the chunk's status. *)
Lemma rejectChunk_effect (s : db) (chunkId userId now : string) (c : Chunk.t)
    (Hc : filter (chunk_by_id chunkId) s.(document_chunks) = [c]) :
  exists s', rejectChunk chunkId userId now None s = (s', Ret tt)
             /\ option_map Chunk.review_status (chunk_row s' chunkId) = Some RRejected
             /\ s'.(kb_vectors) = s.(kb_vectors).
Proof.
  unfold rejectChunk, bind, ret, get, modify; rewrite Hc; cbv beta iota.
  eexists; split; [reflexivity|].
  unfold chunk_row, set_documents, set_chunks; cbn [document_chunks kb_vectors].
  rewrite chunk_row_update with (c := c) by (exact Hc || reflexivity); split; reflexivity.
Qed.

(** What one [saveChunkDraft] call does, whatever the chunk's status. *)
Lemma saveChunkDraft_effect (s : db) (chunkId curatorNotes userId now : string)
    (aiMetadata : option obj) (c : Chunk.t)
    (Hc : filter (chunk_by_id chunkId) s.(document_chunks) = [c]) :
  exists s', saveChunkDraft chunkId curatorNotes aiMetadata userId now None s = (s', Ret tt)
             /\ option_map Chunk.review_status (chunk_row s' chunkId) = Some RDraft.
Proof.
  unfold saveChunkDraft, modify; eexists; split; [reflexivity|].
  unfold chunk_row, set_chunks; cbn [document_chunks].
  rewrite chunk_row_update with (c := c) by (exact Hc || reflexivity); reflexivity.
Qed.

Lemma in_insert_by (x c : Chunk.t) (l : list Chunk.t) :
  In x (insert_by c l) <-> c = x \/ In x l.
Proof.
  induction l as [|a l IH]; simpl; [tauto|].
  destruct (conf_le c a); simpl; [tauto|]. rewrite IH; tauto.
Qed.

Lemma in_sort_by_confidence (x : Chunk.t) (l : list Chunk.t) :
  In x (sort_by_confidence l) <-> In x l.
Proof.
  induction l as [|a l IH]; simpl; [tauto|]. rewrite in_insert_by, IH; tauto.
Qed.

Lemma review_status_eqb_true (a b : review_status) : review_status_eqb a b = true <-> a = b.
Proof. destruct a, b; simpl; split; congruence. Qed.

(** The queue [getChunksForReview] serves: the document's [pending] chunks. *)
Lemma getChunksForReview_members (s : db) (documentId : string) :
  exists l, getChunksForReview documentId None s = (s, Ret l)
  /\ forall c, In c l <-> In c s.(document_chunks) /\ c.(Chunk.document_id) = documentId
                           /\ c.(Chunk.review_status) = RPending.
Proof.
  eexists; split; [reflexivity|]. intros c.
  rewrite in_sort_by_confidence, !filter_In.
  unfold chunk_is_pending, chunk_by_doc; rewrite review_status_eqb_true, String.eqb_eq; tauto.
Qed.

(** C2 (counterexample): [c1] is [approved] and has one vector record; a
    second [approveChunk] on it succeeds and adds a second record. *)
Lemma approveChunk_second_vector :
  option_map Chunk.review_status (chunk_row approve_again_db "c1") = Some RApproved
  /\ vectors_of approve_again_db "c1" = 1
  /\ approveChunk "c1" "ok" "u1" "t2" None None approve_again_db
     = (fst (approveChunk "c1" "ok" "u1" "t2" None None approve_again_db), Ret tt)
  /\ vectors_of (fst (approveChunk "c1" "ok" "u1" "t2" None None approve_again_db)) "c1" = 2.
Proof. vm_compute. repeat split. Qed.

(** C2 (amended): [approveChunk] has no status precondition.  On any
    existing chunk, whatever its [review_status], it sets [approved] and
    adds exactly one [kb_vectors] record for the chunk when the insert
    succeeds (none when it fails); so each call adds a record, and at most
    one record per chunk holds only if each chunk is approved at most once. *)
Theorem approveChunk_one_vector_per_call (s : db) (chunkId curatorNotes userId now : string)
    (c : Chunk.t) (Hc : filter (chunk_by_id chunkId) s.(document_chunks) = [c]) :
  (exists s', approveChunk chunkId curatorNotes userId now None None s = (s', Ret tt)
              /\ option_map Chunk.review_status (chunk_row s' chunkId) = Some RApproved
              /\ vectors_of s' chunkId = S (vectors_of s chunkId))
  /\ (forall vectorError, exists s',
        approveChunk chunkId curatorNotes userId now None (Some vectorError) s = (s', Ret tt)
        /\ option_map Chunk.review_status (chunk_row s' chunkId) = Some RApproved
        /\ vectors_of s' chunkId = vectors_of s chunkId).
Proof. exact (approveChunk_effect s chunkId curatorNotes userId now c Hc). Qed.

Lemma approveChunk_one_vector_per_call_witness :
  filter (chunk_by_id "c1") approve_again_db.(document_chunks)
    = [chunk_set_review RApproved None (Some "ok") "u1" "t1" (mk_chunk "c1" "d1" 0 RApproved None)]
  /\ exists s', approveChunk "c1" "ok" "u1" "t2" None None approve_again_db = (s', Ret tt)
                /\ vectors_of s' "c1" = S (vectors_of approve_again_db "c1").
Proof.
  assert (Hc : filter (chunk_by_id "c1") approve_again_db.(document_chunks)
    = [chunk_set_review RApproved None (Some "ok") "u1" "t1" (mk_chunk "c1" "d1" 0 RApproved None)])
    by reflexivity.
  split; [exact Hc|].
  destruct (approveChunk_one_vector_per_call approve_again_db "c1" "ok" "u1" "t2" _ Hc)
    as [[s' [H1 [_ H3]]] _].
  exists s'; split; [exact H1 | exact H3].
Defined.

(** C3 (counterexample): the filtered chunk [f1] is not in the review
    queue, yet [approveChunk] moves it to [approved] (and creates a vector
    record for it), and [rejectChunk] moves it to [rejected]. *)
Lemma filtered_chunk_approved :
  map Chunk.id (returned [] (getChunksForReview "d3" None filtered_db)) = ["p1"]
  /\ option_map Chunk.review_status (chunk_row filtered_db "f1") = Some RFiltered
  /\ snd (approveChunk "f1" "" "u1" "t1" None None filtered_db) = Ret tt
  /\ option_map Chunk.review_status
       (chunk_row (fst (approveChunk "f1" "" "u1" "t1" None None filtered_db)) "f1")
     = Some RApproved
  /\ option_map Chunk.review_status
       (chunk_row (fst (rejectChunk "f1" "u1" "t1" None filtered_db)) "f1")
     = Some RRejected.
Proof. vm_compute. repeat split. Qed.

(** C3 (amended): a chunk in [filtered] is never in the result of
    [getChunksForReview], which serves only [pending] chunks; but
    [approveChunk], [rejectChunk] and [saveChunkDraft] do not check the
    status and move a filtered chunk to [approved], [rejected] or [draft]. *)
Theorem filtered_chunk_not_queued_but_unguarded (s : db) (documentId chunkId : string)
    (c : Chunk.t) (Hc : filter (chunk_by_id chunkId) s.(document_chunks) = [c])
    (Hf : c.(Chunk.review_status) = RFiltered) :
  (exists l, getChunksForReview documentId None s = (s, Ret l) /\ ~ In c l)
  /\ (forall curatorNotes userId now, exists s',
        approveChunk chunkId curatorNotes userId now None None s = (s', Ret tt)
        /\ option_map Chunk.review_status (chunk_row s' chunkId) = Some RApproved)
  /\ (forall userId now, exists s',
        rejectChunk chunkId userId now None s = (s', Ret tt)
        /\ option_map Chunk.review_status (chunk_row s' chunkId) = Some RRejected)
  /\ (forall curatorNotes aiMetadata userId now, exists s',
        saveChunkDraft chunkId curatorNotes aiMetadata userId now None s = (s', Ret tt)
        /\ option_map Chunk.review_status (chunk_row s' chunkId) = Some RDraft).
Proof.
  split; [|split; [|split]].
  - destruct (getChunksForReview_members s documentId) as [l [Hrun Hin]].
    exists l; split; [exact Hrun|].
    rewrite Hin; intros [_ [_ Hp]]; rewrite Hf in Hp; discriminate.
  - intros n u t.
    destruct (approveChunk_effect s chunkId n u t c Hc) as [[s' [H1 [H2 _]]] _].
    exists s'; split; assumption.
  - intros u t.
    destruct (rejectChunk_effect s chunkId u t c Hc) as [s' [H1 [H2 _]]].
    exists s'; split; assumption.
  - intros n m u t. exact (saveChunkDraft_effect s chunkId n u t m c Hc).
Qed.

Lemma filtered_chunk_not_queued_but_unguarded_witness :
  filter (chunk_by_id "f1") filtered_db.(document_chunks) = [mk_chunk "f1" "d3" 0 RFiltered None]
  /\ exists s', approveChunk "f1" "" "u1" "t1" None None filtered_db = (s', Ret tt)
                /\ option_map Chunk.review_status (chunk_row s' "f1") = Some RApproved.
Proof.
  split; [reflexivity|].
  destruct (filtered_chunk_not_queued_but_unguarded filtered_db "d3" "f1"
              (mk_chunk "f1" "d3" 0 RFiltered None) eq_refl eq_refl) as [_ [H _]].
  exact (H "" "u1" "t1").
Defined.

(* ------------------------------------------------------------------ *)
(** ** enrichChunkMetadata *)

(** C4 (counterexample): with Flow 2 configured and the Flow 2 call
    failing, [enrichChunkMetadata] returns normally and the chunk is back in
    [pending], but its [ai_metadata] is no longer the one it had. *)
Lemma enrich_failure_rewrites_metadata :
  let r := enrichChunkMetadata (fun _ => None) "e1" "t1" true (FlowErr "503") enrich_db in
  snd r = Ret tt
  /\ option_map Chunk.review_status (chunk_row (fst r) "e1") = Some RPending
  /\ option_map Chunk.ai_metadata (chunk_row (fst r) "e1")
     <> option_map Chunk.ai_metadata (chunk_row enrich_db "e1").
Proof. vm_compute. split; [reflexivity|split; [reflexivity|discriminate]]. Qed.

(** C4 (amended): when the Flow 2 call fails, [enrichChunk] resolves to
    [default_metadata], which [enrichChunkMetadata] merges over the chunk's
    metadata (refreshing [last_updated]); the confidence becomes 0.3, the
    status is back to [pending], and nothing is thrown.  Only when
    [enrichChunk] itself throws (Flow 2 not configured) is [ai_metadata]
    left as it was, again with the status reset to [pending]. *)
Theorem enrichChunkMetadata_gateway_error (json_parse : string -> option jval) (s : db)
    (chunkId now : string) (c : Chunk.t)
    (Hc : filter (chunk_by_id chunkId) s.(document_chunks) = [c]) :
  (forall e, exists s',
     enrichChunkMetadata json_parse chunkId now true (FlowErr e) s = (s', Ret tt)
     /\ chunk_row s' chunkId
        = Some (chunk_set_enriched
                  (obj_set "last_updated" (JStr now)
                     (spread (spread [] (existing_meta c)) (entries default_metadata)))
                  (Some (JNum (3 # 10))) c))
  /\ (forall response, exists s',
     enrichChunkMetadata json_parse chunkId now false response s = (s', Ret tt)
     /\ chunk_row s' chunkId = Some (chunk_set_status RPending c)).
Proof.
  split; [intros e | intros response];
  unfold enrichChunkMetadata, try_catch, bind, modify, lift, get; cbn [enrichChunk negb];
  eexists; (split; [reflexivity|]);
  unfold chunk_row, set_chunks; cbn [document_chunks];
  rewrite !filter_update_where by reflexivity; rewrite Hc; reflexivity.
Qed.

Lemma enrichChunkMetadata_gateway_error_witness :
  filter (chunk_by_id "e1") enrich_db.(document_chunks)
    = [mk_chunk "e1" "d4" 0 RPending (Some [("topic", JStr "Billing"); ("last_updated", JStr "t0")])]
  /\ exists s', enrichChunkMetadata (fun _ => None) "e1" "t1" true (FlowErr "503") enrich_db
                = (s', Ret tt)
                /\ option_map Chunk.confidence_score (chunk_row s' "e1") = Some (Some (JNum (3 # 10))).
Proof.
  split; [reflexivity|].
  destruct (enrichChunkMetadata_gateway_error (fun _ => None) enrich_db "e1" "t1"
              (mk_chunk "e1" "d4" 0 RPending
                 (Some [("topic", JStr "Billing"); ("last_updated", JStr "t0")])) eq_refl)
    as [H _].
  destruct (H "503") as [s' [H1 H2]].
  exists s'; split; [exact H1|]. rewrite H2; reflexivity.
Defined.

(** C7 (code bug): an explicit confidence of 0 is dropped by [||]; the
    stored [confidence_score] is the relevance score 0.8 instead of 0. *)
Theorem enrich_zero_confidence_replaced :
  let r := enrichChunkMetadata (fun _ => None) "e1" "t1" true zero_confidence_answer enrich_db in
  snd r = Ret tt
  /\ option_map Chunk.confidence_score (chunk_row (fst r) "e1") = Some (Some (JNum (4 # 5)))
  /\ option_map Chunk.confidence_score (chunk_row (fst r) "e1") <> Some (Some (JNum 0)).
Proof. vm_compute. split; [reflexivity|split; [reflexivity|discriminate]]. Qed.

(* ------------------------------------------------------------------ *)
(** ** isRole *)

(** C8: [isRole(required)] holds exactly when the profile is active and its
    role is at least [required] in user < curator < admin; an inactive
    profile (an inactive curator, an inactive admin) passes no check. *)
Theorem isRole_total_order (p : Profile.t) (required : user_role) :
  (isRole (Some p) required = true
   <-> p.(Profile.is_active) = true /\ role_rank required <= role_rank p.(Profile.role))
  /\ isRole (Some (Profile.mk p.(Profile.id) p.(Profile.full_name) Curator false)) Curator = false
  /\ isRole (Some (Profile.mk p.(Profile.id) p.(Profile.full_name) Curator false)) User = false
  /\ isRole (Some (Profile.mk p.(Profile.id) p.(Profile.full_name) Admin false)) required = false.
Proof.
  destruct p as [i n r a]; unfold isRole; cbn.
  split; [|split; [reflexivity|split; [reflexivity|reflexivity]]].
  destruct a, r, required; cbn; split; intros H; try discriminate;
    try (split; [reflexivity|lia]); try reflexivity; destruct H as [H1 H2]; try lia; discriminate.
Qed.

(* ------------------------------------------------------------------ *)
(** ** The approve-document request *)

(** C9 (counterexample): the admin's [approve-document] completes a
    document that is in [review], not [submitted]. *)
Lemma approve_document_from_review :
  doc_status sample_db "d1" = Some PReview
  /\ snd (serve (Some "a1") (ApproveDocument "d1") None sample_db) = Ret (mkResponse 200 "success")
  /\ doc_status (fst (serve (Some "a1") (ApproveDocument "d1") None sample_db)) "d1"
     = Some PCompleted.
Proof. vm_compute. repeat split. Qed.

Lemma serve_not_admin (s : db) (authUser : option string) (req : request)
    (docError : option string) :
  caller_is_admin s authUser = false ->
  exists msg, serve authUser req docError s = (s, Ret (mkResponse 400 msg)).
Proof.
  unfold caller_is_admin, serve, try_catch, bind, get, throw, ret.
  destruct authUser as [uid|]; [|intros _; eexists; reflexivity].
  destruct (single (filter (fun p => String.eqb p.(Profile.id) uid) s.(profiles))) as [p|];
    [|intros _; eexists; reflexivity].
  intros H; rewrite H; eexists; reflexivity.
Qed.

(** C9 (amended): a caller who is not authenticated or whose profile role
    is not [admin] gets a 400 answer and the store is unchanged.  For an
    admin, [approve-document] sets the document to [completed] whatever its
    current status, and marks [completed] every [curation_queue] row whose
    [url] is the document's (non-empty) [source_url] and whose [kb_id] is
    its [doc_type]. *)
Theorem approve_document_admin_only (s : db) :
  (forall authUser req docError, caller_is_admin s authUser = false ->
     exists msg, serve authUser req docError s = (s, Ret (mkResponse 400 msg)))
  /\ (forall uid documentId d, caller_is_admin s (Some uid) = true ->
        filter (doc_by_id documentId) s.(documents) = [d] ->
        exists s', serve (Some uid) (ApproveDocument documentId) None s
                   = (s', Ret (mkResponse 200 "success"))
        /\ doc_row s' documentId = Some (doc_set_status PCompleted d)
        /\ s'.(curation_queue) = update_where (queue_hit d) queue_set_completed s.(curation_queue)).
Proof.
  split; [exact (serve_not_admin s)|].
  intros uid documentId d Hadm Hd.
  unfold caller_is_admin in Hadm.
  destruct (single (filter (fun p => String.eqb p.(Profile.id) uid) s.(profiles))) as [p|] eqn:Hp;
    [|discriminate].
  unfold serve, approve_document, try_catch, bind, get, modify, ret.
  rewrite Hp, Hadm. cbv beta iota.
  unfold set_documents; cbn [documents].
  rewrite filter_update_where by reflexivity; rewrite Hd; cbn [map single].
  unfold queue_hit; cbn [Doc.source_url doc_set_status Doc.doc_type].
  destruct (Doc.source_url d) as [u|].
  - destruct (String.eqb u "") eqn:Hu.
    + eexists; split; [reflexivity|].
      unfold doc_row; cbn [documents]; rewrite filter_update_where by reflexivity; rewrite Hd.
      split; [reflexivity|]. cbn [curation_queue].
      symmetry; apply update_where_false; intros r _; reflexivity.
    + eexists; split; [reflexivity|].
      unfold doc_row, set_queue; cbn [documents curation_queue].
      rewrite filter_update_where by reflexivity; rewrite Hd.
      split; [reflexivity|]. reflexivity.
  - eexists; split; [reflexivity|].
    unfold doc_row; cbn [documents]; rewrite filter_update_where by reflexivity; rewrite Hd.
    split; [reflexivity|]. cbn [curation_queue].
    symmetry; apply update_where_false; intros r _; reflexivity.
Qed.

Lemma approve_document_admin_only_witness :
  caller_is_admin sample_db (Some "u1") = false
  /\ caller_is_admin sample_db (Some "a1") = true
  /\ filter (doc_by_id "d1") sample_db.(documents) = [mk_doc "d1" PReview (Some "https://x")]
  /\ (exists msg, serve (Some "u1") (ApproveDocument "d1") None sample_db
                  = (sample_db, Ret (mkResponse 400 msg)))
  /\ exists s', serve (Some "a1") (ApproveDocument "d1") None sample_db
                = (s', Ret (mkResponse 200 "success"))
                /\ map Queue.status s'.(curation_queue) = [QCompleted].
Proof.
  destruct (approve_document_admin_only sample_db) as [Hn Ha].
  split; [reflexivity|split; [reflexivity|split; [reflexivity|split]]].
  - exact (Hn (Some "u1") (ApproveDocument "d1") None eq_refl).
  - destruct (Ha "a1" "d1" (mk_doc "d1" PReview (Some "https://x")) eq_refl eq_refl)
      as [s' [H1 [_ H3]]].
    exists s'; split; [exact H1|]. rewrite H3; reflexivity.
Defined.

(* ================================================================== *)
(** * Further properties of the processing and curation code *)

(** ** fallbackChunking *)

Lemma forallb_drop_ws (l : list ascii) :
  forallb is_ws (drop_ws l) = forallb is_ws l.
Proof.
  induction l as [|c l IH]; [reflexivity|].
  simpl. destruct (is_ws c) eqn:E; [exact IH|]. simpl. rewrite E. reflexivity.
Qed.

Lemma forallb_rev_ascii (f : ascii -> bool) (l : list ascii) :
  forallb f (rev l) = forallb f l.
Proof.
  induction l as [|c l IH]; [reflexivity|].
  simpl. rewrite forallb_app, IH. simpl. rewrite andb_true_r, andb_comm. reflexivity.
Qed.

Lemma drop_ws_nil_iff (l : list ascii) : drop_ws l = [] <-> forallb is_ws l = true.
Proof.
  induction l as [|c l IH]; [simpl; tauto|].
  simpl. destruct (is_ws c); simpl; [exact IH|split; discriminate].
Qed.

Lemma rev_nil_iff {A} (l : list A) : rev l = [] <-> l = [].
Proof.
  split; intro H; [|subst; reflexivity].
  apply (f_equal (@rev A)) in H. rewrite rev_involutive in H. exact H.
Qed.

Lemma trim_nil_iff (l : list ascii) : trim l = [] <-> forallb is_ws l = true.
Proof.
  unfold trim. rewrite rev_nil_iff, drop_ws_nil_iff, forallb_rev_ascii, forallb_drop_ws.
  tauto.
Qed.

Lemma trim_pos (l : list ascii) : forallb is_ws l = false -> 0 < length (trim l).
Proof.
  intro H. destruct (trim l) eqn:E; [apply trim_nil_iff in E; congruence|simpl; lia].
Qed.

Lemma trim_nonblank (l : list ascii) :
  Nat.ltb 0 (length (trim l)) = negb (forallb is_ws l).
Proof.
  destruct (forallb is_ws l) eqn:E.
  - apply trim_nil_iff in E. rewrite E. reflexivity.
  - apply Nat.ltb_lt, trim_pos, E.
Qed.

Lemma drop_ws_length (l : list ascii) : length (drop_ws l) <= length l.
Proof.
  induction l as [|c l IH]; [reflexivity|]. simpl. destruct (is_ws c); simpl; lia.
Qed.

Lemma trim_length (l : list ascii) : length (trim l) <= length l.
Proof.
  unfold trim. rewrite length_rev.
  pose proof (drop_ws_length (rev (drop_ws l))). rewrite length_rev in H.
  pose proof (drop_ws_length l). lia.
Qed.

Lemma drop_ws_app (x y : list ascii) :
  drop_ws (x ++ y) = if forallb is_ws x then drop_ws y else (drop_ws x ++ y)%list.
Proof.
  induction x as [|c x IH]; [reflexivity|].
  simpl. destruct (is_ws c); simpl; [exact IH|reflexivity].
Qed.

Lemma trim_snoc_space (x : list ascii) : trim (x ++ [" "%char]) = trim x.
Proof.
  unfold trim. rewrite drop_ws_app.
  destruct (forallb is_ws x) eqn:E.
  - apply drop_ws_nil_iff in E. rewrite E. reflexivity.
  - rewrite rev_app_distr. reflexivity.
Qed.

Lemma dots_snoc (g : list (list ascii)) (s : list ascii) :
  dots (g ++ [s]) = (dots g ++ s ++ dot_space)%list.
Proof. unfold dots. rewrite map_app, concat_app. simpl. rewrite app_nil_r. reflexivity. Qed.

Lemma dots_length_cons (s : list ascii) (g : list (list ascii)) :
  2 <= length (dots (s :: g)).
Proof. unfold dots. simpl. rewrite !length_app. simpl. lia. Qed.

Lemma dots_trim_budget (g : list (list ascii)) :
  g <> [] -> (length g <= 1 \/ length (dots g) <= 1002) ->
  length g = 1 \/ length (trim (dots g)) <= 1001.
Proof.
  intros Hne [H|H].
  - left. destruct g as [|s [|s' g]]; [congruence|reflexivity|simpl in H; lia].
  - right. destruct (exists_last Hne) as [g' [s E]]. subst g.
    rewrite dots_snoc in *.
    replace (dots g' ++ s ++ dot_space)%list with ((dots g' ++ s ++ ["."%char]) ++ [" "%char])%list
      in * by (unfold dot_space; rewrite <- !app_assoc; reflexivity).
    rewrite trim_snoc_space.
    pose proof (trim_length (dots g' ++ s ++ ["."%char])).
    rewrite length_app in H. simpl in H. lia.
Qed.

Lemma dots_nonblank (s : list ascii) (g : list (list ascii)) :
  forallb is_ws s = false -> 0 < length (trim (dots (s :: g))).
Proof.
  intro H. apply trim_pos. unfold dots. simpl. rewrite !forallb_app, H. reflexivity.
Qed.

Lemma fb_loop_groups (ss : list (list ascii)) :
  forall g0 idx,
  Forall (fun s => forallb is_ws s = false) ss ->
  Forall (fun s => forallb is_ws s = false) g0 ->
  (length g0 <= 1 \/ length (dots g0) <= 1002) ->
  exists groups,
    List.concat groups = (g0 ++ ss)%list /\
    Forall (fun g => g <> [] /\ 0 < length (trim (dots g))
                     /\ (length g = 1 \/ length (trim (dots g)) <= 1001)) groups /\
    map GChunk.text (fb_loop ss (dots g0) idx)
    = map (fun g => string_of_list_ascii (trim (dots g))) groups.
Proof.
  induction ss as [|s ss IH]; intros g0 idx Hss Hg0 Hb.
  - cbn [fb_loop]. destruct g0 as [|s g].
    + exists []. split; [reflexivity|split; [constructor|reflexivity]].
    + inversion Hg0 as [|? ? Hs _]; subst.
      pose proof (dots_nonblank s g Hs) as Hpos.
      rewrite (proj2 (Nat.ltb_lt _ _) Hpos).
      exists [s :: g]. split; [simpl; rewrite !app_nil_r; reflexivity|].
      split; [|reflexivity].
      constructor; [|constructor].
      split; [discriminate|split; [exact Hpos|]].
      apply dots_trim_budget; [discriminate|exact Hb].
  - inversion Hss as [|? ? Hs Hss']; subst. cbn [fb_loop].
    destruct (Nat.ltb 1000 (length (dots g0 ++ s)%list) && Nat.ltb 0 (length (dots g0)))
      eqn:Hc.
    + apply andb_true_iff in Hc as [H1 H2]. apply Nat.ltb_lt in H1, H2.
      destruct g0 as [|s0 g]; [simpl in H2; lia|].
      inversion Hg0 as [|? ? Hs0 _]; subst.
      replace (s ++ dot_space)%list with (dots [s])
        by (unfold dots; simpl; rewrite app_nil_r; reflexivity).
      destruct (IH [s] (S idx) Hss' (Forall_cons _ Hs (Forall_nil _)) (or_introl (le_n 1)))
        as [gs [Hcat [Hf Hm]]].
      exists ((s0 :: g) :: gs). split; [|split].
      * cbn [List.concat]. rewrite Hcat. reflexivity.
      * constructor; [|exact Hf].
        split; [discriminate|split; [apply dots_nonblank, Hs0|]].
        apply dots_trim_budget; [discriminate|exact Hb].
      * simpl. rewrite Hm. reflexivity.
    + rewrite <- dots_snoc.
      assert (Hb' : length (g0 ++ [s]) <= 1 \/ length (dots (g0 ++ [s])) <= 1002).
      { apply andb_false_iff in Hc as [H1|H2].
        - right. apply Nat.ltb_ge in H1. rewrite dots_snoc, !length_app in *.
          unfold dot_space; simpl. lia.
        - left. apply Nat.ltb_ge in H2.
          destruct g0 as [|s0 g]; [simpl; lia|].
          pose proof (dots_length_cons s0 g). lia. }
      destruct (IH (g0 ++ [s])%list idx Hss'
                  (proj2 (Forall_app _ _ _) (conj Hg0 (Forall_cons _ Hs (Forall_nil _)))) Hb')
        as [gs [Hcat [Hf Hm]]].
      exists gs. split; [rewrite Hcat, <- app_assoc; reflexivity|split; [exact Hf|exact Hm]].
Qed.

Lemma sentences_nonblank (t : list ascii) :
  Forall (fun s => forallb is_ws s = false) (sentences t).
Proof.
  apply Forall_forall. intros s Hin. unfold sentences in Hin.
  apply filter_In in Hin as [_ H]. rewrite trim_nonblank in H.
  destruct (forallb is_ws s); [discriminate|reflexivity].
Qed.

Lemma fb_loop_shape (ss : list (list ascii)) :
  forall cur idx,
  map GChunk.index (fb_loop ss cur idx) = seq idx (length (fb_loop ss cur idx)) /\
  Forall (fun c => GChunk.filtered c = false /\ GChunk.section_type c = JStr "body")
         (fb_loop ss cur idx).
Proof.
  induction ss as [|s ss IH]; intros cur idx; cbn [fb_loop].
  - destruct (Nat.ltb 0 (length (trim cur))); simpl; auto.
  - destruct (_ && _).
    + destruct (IH (s ++ dot_space)%list (S idx)) as [H1 H2].
      simpl. rewrite H1. split; [reflexivity|constructor; auto].
    + apply IH.
Qed.

Lemma split_runs_blank (l : list ascii) :
  forall cur sep,
  forallb (forallb is_ws) (split_runs l cur sep)
  = forallb is_ws cur && forallb (fun c => is_ws c || is_punct c) l.
Proof.
  induction l as [|c l IH]; intros cur sep; simpl.
  - rewrite forallb_rev_ascii, !andb_true_r. reflexivity.
  - destruct (is_punct c) eqn:Ep.
    + rewrite orb_true_r. simpl. destruct sep.
      * apply IH.
      * simpl. rewrite IH, forallb_rev_ascii. reflexivity.
    + rewrite orb_false_r, IH. simpl.
      destruct (is_ws c), (forallb is_ws cur); reflexivity.
Qed.

Lemma filter_nil_iff {A} (f : A -> bool) (l : list A) :
  filter f l = [] <-> forallb (fun x => negb (f x)) l = true.
Proof.
  induction l as [|x l IH]; [simpl; tauto|].
  simpl. destruct (f x); simpl; [split; discriminate|exact IH].
Qed.

(** fallbackChunking returns no chunk exactly when the text consists only
    of whitespace and the sentence separators [.], [!] and [?]. *)
Theorem fallbackChunking_nil_iff (text : string) :
  fallbackChunking text = []
  <-> forallb (fun c => is_ws c || is_punct c) (list_ascii_of_string text) = true.
Proof.
  assert (Hs : sentences (list_ascii_of_string text) = []
               <-> forallb (fun c => is_ws c || is_punct c) (list_ascii_of_string text) = true).
  { unfold sentences. rewrite filter_nil_iff.
    replace (forallb _ (split_runs (list_ascii_of_string text) [] false))
      with (forallb (forallb is_ws) (split_runs (list_ascii_of_string text) [] false)).
    2:{ induction (split_runs (list_ascii_of_string text) [] false) as [|x l IH]; [reflexivity|].
        simpl. rewrite IH, trim_nonblank, negb_involutive. reflexivity. }
    rewrite split_runs_blank. reflexivity. }
  rewrite <- Hs. split; intro H.
  - destruct (sentences (list_ascii_of_string text)) as [|s ss] eqn:E; [reflexivity|].
    exfalso.
    destruct (fb_loop_groups (s :: ss) [] 0 ltac:(rewrite <- E; apply sentences_nonblank)
                (Forall_nil _) (or_introl (Nat.le_0_l _))) as [gs [Hcat [_ Hm]]].
    unfold fallbackChunking in H. rewrite E in H. cbn [dots map List.concat] in Hm.
    rewrite H in Hm. destruct gs; [discriminate Hcat|discriminate Hm].
  - unfold fallbackChunking. rewrite H. reflexivity.
Qed.

Lemma fallbackChunking_props (text : string) :
  map GChunk.index (fallbackChunking text) = seq 0 (length (fallbackChunking text)) /\
  Forall (fun c => GChunk.filtered c = false /\ GChunk.section_type c = JStr "body"
                   /\ GChunk.text c <> "") (fallbackChunking text).
Proof.
  destruct (fb_loop_shape (sentences (list_ascii_of_string text)) [] 0) as [Hi Hf].
  destruct (fb_loop_groups (sentences (list_ascii_of_string text)) [] 0
              (sentences_nonblank _) (Forall_nil _) (or_introl (Nat.le_0_l _)))
    as [gs [_ [Hg Hm]]].
  cbn [dots map List.concat] in Hm. fold (fallbackChunking text) in Hi, Hf, Hm.
  split; [exact Hi|].
  assert (Ht : Forall (fun t => t <> "") (map GChunk.text (fallbackChunking text))).
  { rewrite Hm, Forall_map. refine (Forall_impl _ _ Hg).
    intros g [_ [Hpos _]] E. destruct (trim (dots g)); [simpl in Hpos; lia|discriminate E]. }
  rewrite Forall_map in Ht.
  apply Forall_forall. intros c Hin.
  destruct (proj1 (Forall_forall _ _) Hf c Hin) as [H1 H2].
  split; [exact H1|split; [exact H2|exact (proj1 (Forall_forall _ _) Ht c Hin)]].
Qed.

(** fallbackChunking cuts the sequence of non-blank sentences into
    consecutive non-empty groups, keeping every sentence in order: each chunk
    is the trimmed concatenation of its group with ". " after every sentence,
    and a chunk made of more than one sentence has at most 1001 characters. *)
Theorem fallbackChunking_groups (text : string) :
  exists groups,
    List.concat groups = sentences (list_ascii_of_string text) /\
    Forall (fun g => g <> [] /\ (length g = 1 \/ length (trim (dots g)) <= 1001)) groups /\
    map GChunk.text (fallbackChunking text)
    = map (fun g => string_of_list_ascii (trim (dots g))) groups.
Proof.
  destruct (fb_loop_groups (sentences (list_ascii_of_string text)) [] 0
              (sentences_nonblank _) (Forall_nil _) (or_introl (Nat.le_0_l _)))
    as [gs [Hcat [Hg Hm]]].
  exists gs. split; [exact Hcat|split; [|exact Hm]].
  refine (Forall_impl _ _ Hg). intros g [H1 [_ H3]]. auto.
Qed.

(** The chunks of fallbackChunking are numbered 0, 1, 2, ... in order, none
    is marked filtered, each has section type "body" and a non-empty text. *)
Theorem fallbackChunking_shape (text : string) :
  map GChunk.index (fallbackChunking text) = seq 0 (length (fallbackChunking text)) /\
  Forall (fun c => GChunk.filtered c = false /\ GChunk.section_type c = JStr "body"
                   /\ GChunk.text c <> "") (fallbackChunking text).
Proof. exact (fallbackChunking_props text). Qed.

(** ** chunkTextWithGemini *)

Lemma clean_chunks_shape (xs : list jval) :
  forall idx cs, clean_chunks idx xs = Some cs ->
  map GChunk.index cs = seq idx (length cs) /\ Forall (fun c => GChunk.filtered c = false) cs.
Proof.
  induction xs as [|x xs IH]; intros idx cs H; simpl in H.
  - injection H as <-. split; [reflexivity|constructor].
  - destruct (jget "text" x) as [[| | | t | |]|]; try discriminate.
    destruct (clean_chunks (S idx) xs) as [cs'|] eqn:E; [|discriminate].
    injection H as <-. destruct (IH (S idx) cs' E) as [H1 H2].
    simpl. rewrite H1. split; [reflexivity|constructor; [reflexivity|exact H2]].
Qed.

Lemma seq_strongly_sorted (a n : nat) : StronglySorted lt (seq a n).
Proof.
  revert a. induction n as [|n IH]; intro a; simpl; constructor; [apply IH|].
  apply Forall_forall. intros y Hy. apply in_seq in Hy. lia.
Qed.

Lemma strongly_sorted_filter_map {A} (R : nat -> nat -> Prop) (g : A -> nat) (f : A -> bool) (l : list A) :
  StronglySorted R (map g l) -> StronglySorted R (map g (filter f l)).
Proof.
  induction l as [|a l IH]; intro H; [constructor|].
  simpl in H. inversion H as [|? ? Hs Hf]; subst.
  simpl. destruct (f a); [|exact (IH Hs)].
  simpl. constructor; [exact (IH Hs)|].
  apply Forall_forall. intros y Hy. apply in_map_iff in Hy as [x [<- Hx]].
  apply filter_In in Hx as [Hx _].
  exact (proj1 (Forall_forall _ _) Hf (g x) (in_map g l x Hx)).
Qed.

Lemma chunkTextWithGemini_cases (json_parse : string -> option jval) (text : string)
    (answer : outcome string) :
  chunkTextWithGemini json_parse text answer = fallbackChunking text
  \/ exists xs cs, clean_chunks 0 xs = Some cs
       /\ chunkTextWithGemini json_parse text answer
          = filter (fun c => Nat.ltb 50 (String.length c.(GChunk.text))) cs.
Proof.
  unfold chunkTextWithGemini. destruct answer as [r|e]; [|left; reflexivity].
  destruct (match_array (list_ascii_of_string r)) as [m|]; [|left; reflexivity].
  destruct (json_parse (string_of_list_ascii m)) as [[| | | | xs |]|]; try (left; reflexivity).
  destruct (clean_chunks 0 xs) as [cs|] eqn:E; [|left; reflexivity].
  right. exists xs, cs. split; [exact E|reflexivity].
Qed.

Lemma chunkTextWithGemini_props (json_parse : string -> option jval) (text : string)
    (answer : outcome string) :
  Forall (fun c => GChunk.filtered c = false /\ GChunk.text c <> "")
         (chunkTextWithGemini json_parse text answer)
  /\ StronglySorted lt (map GChunk.index (chunkTextWithGemini json_parse text answer))
  /\ (chunkTextWithGemini json_parse text answer = fallbackChunking text
      \/ Forall (fun c => 50 < String.length (GChunk.text c))
                (chunkTextWithGemini json_parse text answer)).
Proof.
  destruct (chunkTextWithGemini_cases json_parse text answer) as [E|[xs [cs [Hc E]]]];
    rewrite E.
  - destruct (fallbackChunking_props text) as [Hi Hf]. split; [|split].
    + refine (Forall_impl _ _ Hf). intros c [H1 [_ H3]]. auto.
    + rewrite Hi. apply seq_strongly_sorted.
    + left; reflexivity.
  - destruct (clean_chunks_shape xs 0 cs Hc) as [Hi Hf].
    assert (Hlen : Forall (fun c => 50 < String.length (GChunk.text c))
                     (filter (fun c => Nat.ltb 50 (String.length c.(GChunk.text))) cs)).
    { apply Forall_forall. intros c Hin. apply filter_In in Hin as [_ H].
      apply Nat.ltb_lt, H. }
    split; [|split].
    + apply Forall_forall. intros c Hin. split.
      * apply filter_In in Hin as [Hin _]. exact (proj1 (Forall_forall _ _) Hf c Hin).
      * intro Ht. pose proof (proj1 (Forall_forall _ _) Hlen c Hin) as H.
        cbv beta in H. rewrite Ht in H. simpl in H. lia.
    + apply strongly_sorted_filter_map. rewrite Hi. apply seq_strongly_sorted.
    + right. exact Hlen.
Qed.

(** Whatever the model answers, chunkTextWithGemini returns chunks that are
    not marked filtered, have non-empty texts and strictly increasing
    indices; unless it fell back to fallbackChunking, every text has more
    than 50 characters. *)
Theorem chunkTextWithGemini_chunks (json_parse : string -> option jval) (text : string)
    (answer : outcome string) :
  Forall (fun c => GChunk.filtered c = false /\ GChunk.text c <> "")
         (chunkTextWithGemini json_parse text answer)
  /\ StronglySorted lt (map GChunk.index (chunkTextWithGemini json_parse text answer))
  /\ (chunkTextWithGemini json_parse text answer = fallbackChunking text
      \/ Forall (fun c => 50 < String.length (GChunk.text c))
                (chunkTextWithGemini json_parse text answer)).
Proof. exact (chunkTextWithGemini_props json_parse text answer). Qed.

(** ** removeAppendices *)

Lemma starts_ci_app (p x y : list ascii) :
  starts_ci p x = true -> starts_ci p (x ++ y) = true.
Proof.
  revert x. induction p as [|c p IH]; intros x H; [reflexivity|].
  destruct x as [|a x]; [discriminate|].
  simpl in *. apply andb_true_iff in H as [H1 H2]. rewrite H1. simpl. apply IH, H2.
Qed.

Lemma cut_at_appendix_prefix (l : list ascii) :
  exists rest, l = (cut_at_appendix l ++ rest)%list
               /\ (rest = [] \/ starts_ci appendix_word rest = true).
Proof.
  induction l as [|c l [r [Hr Hs]]].
  - exists []. split; [reflexivity|left; reflexivity].
  - cbn [cut_at_appendix]. destruct (starts_ci appendix_word (c :: l)) eqn:E.
    + exists (c :: l). split; [reflexivity|right; exact E].
    + exists r. split; [simpl; rewrite <- Hr; reflexivity|exact Hs].
Qed.

Lemma cut_at_appendix_clean (l : list ascii) :
  occurs_ci appendix_word (cut_at_appendix l) = false.
Proof.
  induction l as [|c l IH]; [reflexivity|].
  cbn [cut_at_appendix]. destruct (starts_ci appendix_word (c :: l)) eqn:E; [reflexivity|].
  cbn [occurs_ci]. rewrite IH, orb_false_r.
  destruct (starts_ci appendix_word (c :: cut_at_appendix l)) eqn:E2; [|reflexivity].
  destruct (cut_at_appendix_prefix l) as [r [Hr _]].
  apply (starts_ci_app _ _ r) in E2.
  change ((c :: cut_at_appendix l) ++ r)%list with (c :: (cut_at_appendix l ++ r))%list in E2.
  rewrite <- Hr in E2. congruence.
Qed.

(** removeAppendices keeps exactly the part of the text before the first
    "appendix" in any letter case: the text is the result followed by a rest
    that is empty or starts with that word, and the result never contains
    it. *)
Theorem removeAppendices_prefix (text : string) :
  exists rest,
    list_ascii_of_string text = (list_ascii_of_string (removeAppendices text) ++ rest)%list
    /\ (rest = [] \/ starts_ci appendix_word rest = true)
    /\ occurs_ci appendix_word (list_ascii_of_string (removeAppendices text)) = false.
Proof.
  unfold removeAppendices. rewrite list_ascii_of_string_of_list_ascii.
  destruct (cut_at_appendix_prefix (list_ascii_of_string text)) as [r [Hr Hs]].
  exists r. split; [exact Hr|split; [exact Hs|apply cut_at_appendix_clean]].
Qed.

(** ** removeCoverPages *)

Lemma split_lines_nonempty (l : list ascii) : split_lines l <> [].
Proof.
  destruct l as [|c l]; simpl; [discriminate|].
  destruct (Ascii.eqb c nl); [discriminate|].
  destruct (split_lines l); discriminate.
Qed.

Lemma join_split_lines (l : list ascii) : join_lines (split_lines l) = l.
Proof.
  induction l as [|c l IH]; [reflexivity|].
  cbn [split_lines]. destruct (Ascii.eqb c nl) eqn:E.
  - apply Ascii.eqb_eq in E. subst c.
    pose proof (split_lines_nonempty l) as Hne.
    cbn [join_lines]. destruct (split_lines l) eqn:Es; [congruence|].
    rewrite <- IH. reflexivity.
  - destruct (split_lines l) as [|x xs] eqn:Es; [exfalso; exact (split_lines_nonempty l Es)|].
    rewrite <- IH. destruct xs; reflexivity.
Qed.

Lemma join_lines_app (pre xs : list (list ascii)) :
  xs <> [] ->
  join_lines (pre ++ xs) = (List.concat (map (fun x => x ++ [nl]) pre) ++ join_lines xs)%list.
Proof.
  intro Hne. induction pre as [|x pre IH]; [reflexivity|].
  cbn [app map List.concat].
  replace (join_lines (x :: pre ++ xs)%list) with (x ++ nl :: join_lines (pre ++ xs))%list.
  2:{ cbn [join_lines]. destruct (pre ++ xs)%list eqn:E; [|reflexivity].
      apply app_eq_nil in E. tauto. }
  rewrite IH, <- !app_assoc. reflexivity.
Qed.

Lemma find_index_first {A} (f : A -> bool) (pre : list A) (x : A) (post : list A) :
  Forall (fun y => f y = false) pre -> f x = true ->
  find_index f (pre ++ x :: post) = Some (length pre).
Proof.
  intros Hpre Hx. induction pre as [|y pre IH]; simpl; [rewrite Hx; reflexivity|].
  inversion Hpre as [|? ? Hy Hpre']; subst. rewrite Hy, (IH Hpre'). reflexivity.
Qed.

Lemma find_index_none {A} (f : A -> bool) (xs : list A) :
  forallb (fun y => negb (f y)) xs = true -> find_index f xs = None.
Proof.
  induction xs as [|y xs IH]; intro H; [reflexivity|].
  simpl in H. apply andb_true_iff in H as [H1 H2].
  simpl. destruct (f y); [discriminate|]. rewrite (IH H2). reflexivity.
Qed.

(** removeCoverPages drops exactly the lines before the first content line
    (a non-blank line that mentions neither "cover" nor "title" in any case
    and is not a bare page number): the result is the text from that line on,
    and the text is the dropped lines followed by the result. *)
Theorem removeCoverPages_from_first_content (text : string)
    (pre : list (list ascii)) (line : list ascii) (post : list (list ascii)) :
  split_lines (list_ascii_of_string text) = (pre ++ line :: post)%list ->
  Forall (fun x => content_line x = false) pre ->
  content_line line = true ->
  list_ascii_of_string (removeCoverPages text) = join_lines (line :: post)
  /\ list_ascii_of_string text
     = (List.concat (map (fun x => x ++ [nl]) pre)
        ++ list_ascii_of_string (removeCoverPages text))%list.
Proof.
  intros Hs Hpre Hl.
  assert (E : list_ascii_of_string (removeCoverPages text) = join_lines (line :: post)).
  { unfold removeCoverPages. rewrite list_ascii_of_string_of_list_ascii, Hs.
    rewrite (find_index_first _ _ _ _ Hpre Hl). cbn [slice_from].
    rewrite skipn_app, skipn_all, Nat.sub_diag. reflexivity. }
  split; [exact E|].
  rewrite E, <- join_lines_app by discriminate. rewrite <- Hs, join_split_lines. reflexivity.
Qed.

(** When no line of the text is a content line, removeCoverPages does not
    return an empty text: [findIndex] gives -1 and [slice(-1)] keeps the
    last line. *)
Theorem removeCoverPages_no_content (text : string) :
  forallb (fun x => negb (content_line x)) (split_lines (list_ascii_of_string text)) = true ->
  list_ascii_of_string (removeCoverPages text) = last (split_lines (list_ascii_of_string text)) [].
Proof.
  intro H. unfold removeCoverPages. rewrite list_ascii_of_string_of_list_ascii.
  rewrite (find_index_none _ _ H). cbn [slice_from].
  destruct (exists_last (split_lines_nonempty (list_ascii_of_string text))) as [ls [x E]].
  rewrite E, rev_app_distr, last_last. reflexivity.
Qed.

(** ** uploadDocument *)

(** The sanitized file name has the length of the original, consists only of
    letters, digits, [.], [-] and [_], so it never contains [/], and
    sanitizing it again changes nothing. *)
Theorem sanitize_safe (name : string) :
  String.length (sanitize name) = String.length name
  /\ (forall c, In c (list_ascii_of_string (sanitize name)) -> name_char c = true \/ c = "_"%char)
  /\ ~ In "/"%char (list_ascii_of_string (sanitize name))
  /\ sanitize (sanitize name) = sanitize name.
Proof.
  assert (Hc : forall c, In c (list_ascii_of_string (sanitize name)) ->
                         name_char c = true \/ c = "_"%char).
  { induction name as [|a name IH]; intros c Hin; [destruct Hin|].
    simpl in Hin. destruct Hin as [<-|Hin]; [|exact (IH c Hin)].
    destruct (name_char a) eqn:E; [left; exact E|right; reflexivity]. }
  split; [|split; [exact Hc|split]].
  - clear Hc. induction name as [|a name IH]; [reflexivity|]. simpl. rewrite IH. reflexivity.
  - intro Hin. destruct (Hc _ Hin) as [H|H]; discriminate H.
  - clear Hc. induction name as [|a name IH]; [reflexivity|].
    simpl. rewrite IH. destruct (name_char a) eqn:E; [rewrite E; reflexivity|reflexivity].
Qed.

Lemma existsb_eqb_in (x : string) (xs : list string) :
  existsb (String.eqb x) xs = true <-> In x xs.
Proof.
  rewrite existsb_exists. split.
  - intros [y [Hy E]]. apply String.eqb_eq in E. subst y. exact Hy.
  - intro H. exists x. split; [exact H|apply String.eqb_refl].
Qed.

(** A file whose (docType, sourceUrl) pair is already in the documents table
    is refused before anything else is looked at: neither the store nor the
    storage bucket changes, whatever the file's size or type. *)
Theorem uploadDocument_duplicate (MAX_FILE_SIZE : nat) (ALLOWED_MIME_TYPES : list string)
    (public_url : string -> string) (column_defaults : Doc.t) (file : File.t)
    (docType u : string) (d : Doc.t) (timestamp : nat) (uploadError session docError : option string)
    (s : db) (storage : list string) :
  u <> "" ->
  filter (same_source docType (Some u)) s.(documents) = [d] ->
  uploadDocument MAX_FILE_SIZE ALLOWED_MIME_TYPES public_url column_defaults file docType
    (Some u) timestamp uploadError session docError (s, storage)
  = ((s, storage), Throw "This document has already been uploaded for this knowledge base.").
Proof.
  intros Hu Hf. unfold uploadDocument. cbn [url_truthy].
  rewrite (proj2 (String.eqb_neq _ _) Hu), Hf. reflexivity.
Qed.


(** Without a session the upload still goes through before the session is
    checked: the file stays in the storage bucket while no document row is
    created and the call fails with "User not authenticated". *)
Theorem uploadDocument_unauthenticated_orphan (MAX_FILE_SIZE : nat)
    (ALLOWED_MIME_TYPES : list string) (public_url : string -> string) (column_defaults : Doc.t)
    (file : File.t) (docType : string) (sourceUrl : option string) (timestamp : nat)
    (docError : option string) (s : db) (storage : list string) :
  (url_truthy sourceUrl = false \/ single (filter (same_source docType sourceUrl) s.(documents)) = None) ->
  File.size file <= MAX_FILE_SIZE ->
  In (File.type file) ALLOWED_MIME_TYPES ->
  uploadDocument MAX_FILE_SIZE ALLOWED_MIME_TYPES public_url column_defaults file docType
    sourceUrl timestamp None None docError (s, storage)
  = ((s, app storage ["uploads/" ++ nat_to_string timestamp ++ "-" ++ sanitize (File.name file)]),
     Throw "User not authenticated").
Proof.
  intros Hd Hsz Hin. unfold uploadDocument.
  replace (url_truthy sourceUrl && _) with false
    by (destruct Hd as [H|H]; rewrite H; [reflexivity|symmetry; apply andb_false_r]).
  rewrite (proj2 (Nat.ltb_ge _ _) Hsz), (proj2 (existsb_eqb_in _ _) Hin). reflexivity.
Qed.

(** A successful upload appends one row to the documents table, in status
    pending, uploaded by the session's user, pointing at the public URL of
    the stored object, with an empty source URL stored as null; the other
    tables are untouched. *)
Theorem uploadDocument_success (MAX_FILE_SIZE : nat)
    (ALLOWED_MIME_TYPES : list string) (public_url : string -> string) (column_defaults : Doc.t)
    (file : File.t) (docType : string) (sourceUrl : option string) (timestamp : nat)
    (user : string) (s : db) (storage : list string) :
  (url_truthy sourceUrl = false \/ single (filter (same_source docType sourceUrl) s.(documents)) = None) ->
  File.size file <= MAX_FILE_SIZE ->
  In (File.type file) ALLOWED_MIME_TYPES ->
  let path := "uploads/" ++ nat_to_string timestamp ++ "-" ++ sanitize (File.name file) in
  exists s' row,
    uploadDocument MAX_FILE_SIZE ALLOWED_MIME_TYPES public_url column_defaults file docType
      sourceUrl timestamp None (Some user) None (s, storage)
    = ((s', (storage ++ [path])%list), Ret (public_url path, "doc-" ++ nat_to_string s.(next_id)))
    /\ s'.(documents) = (s.(documents) ++ [row])%list
    /\ Doc.id row = "doc-" ++ nat_to_string s.(next_id)
    /\ Doc.processing_status row = PPending
    /\ Doc.uploaded_by row = Some user
    /\ Doc.storage_path row = public_url path
    /\ Doc.source_url row = (if url_truthy sourceUrl then sourceUrl else None)
    /\ s'.(document_chunks) = s.(document_chunks)
    /\ s'.(kb_vectors) = s.(kb_vectors)
    /\ s'.(curation_queue) = s.(curation_queue).
Proof.
  intros Hd Hsz Hin path. unfold uploadDocument.
  replace (url_truthy sourceUrl && _) with false
    by (destruct Hd as [H|H]; rewrite H; [reflexivity|symmetry; apply andb_false_r]).
  rewrite (proj2 (Nat.ltb_ge _ _) Hsz), (proj2 (existsb_eqb_in _ _) Hin). cbn [negb].
  do 2 eexists. split; [reflexivity|].
  cbn. repeat split; try reflexivity.
  destruct sourceUrl as [u|]; [|reflexivity].
  simpl. unfold or_null. destruct (String.eqb u ""); reflexivity.
Qed.

(** ** Enrichment, statistics, deletion, admin checks and navigation *)
Lemma update_where_compose {A} (p : A -> bool) (f g : A -> A) (l : list A)
    (Hf : forall x, p (f x) = p x) :
  update_where p g (update_where p f l) = update_where p (fun x => g (f x)) l.
Proof.
  unfold update_where. rewrite map_map. apply map_ext. intros x.
  destruct (p x) eqn:E; [rewrite Hf, E|rewrite E]; reflexivity.
Qed.

Lemma Forall2_update_where {A} (R : A -> A -> Prop) (p : A -> bool) (f : A -> A) (l : list A)
    (Ht : forall x, p x = true -> R x (f x)) (Hf : forall x, p x = false -> R x x) :
  Forall2 R l (update_where p f l).
Proof.
  induction l as [|x l IH]; simpl; constructor; auto.
  destruct (p x) eqn:E; auto.
Qed.

Lemma enrichChunkMetadata_step (json_parse : string -> option jval) (chunkId now : string)
    (flow2Configured : bool) (response : flowise_response) (s : db) :
  exists s',
    enrichChunkMetadata json_parse chunkId now flow2Configured response s = (s', Ret tt)
    /\ s'.(documents) = s.(documents) /\ s'.(kb_vectors) = s.(kb_vectors)
    /\ s'.(curation_queue) = s.(curation_queue) /\ s'.(profiles) = s.(profiles)
    /\ s'.(next_id) = s.(next_id)
    /\ Forall2 (fun c c' =>
         if chunk_by_id chunkId c
         then Chunk.id c' = Chunk.id c /\ Chunk.document_id c' = Chunk.document_id c
              /\ Chunk.chunk_text c' = Chunk.chunk_text c
              /\ Chunk.review_status c' = RPending
         else c' = c) s.(document_chunks) s'.(document_chunks).
Proof.
  unfold enrichChunkMetadata, try_catch, bind, modify, lift, get.
  destruct (enrichChunk json_parse flow2Configured response) as [meta|e].
  all: eexists; split; [reflexivity|]; unfold set_chunks.
  all: cbn [documents kb_vectors curation_queue profiles next_id document_chunks].
  all: do 5 (split; [reflexivity|]).
  all: rewrite update_where_compose by reflexivity.
  all: apply Forall2_update_where; intros x Hx; rewrite Hx.
  all: try reflexivity.
  all: repeat split.
Qed.


(** enrichChunkMetadata never throws, whatever Flow 2 answers: it changes
    only the rows with the given chunk id, which keep their id, document and
    text and end with review status pending, and it leaves the other tables
    unchanged. *)
Theorem enrichChunkMetadata_always_pending (json_parse : string -> option jval) (chunkId now : string)
    (flow2Configured : bool) (response : flowise_response) (s : db) :
  exists s',
    enrichChunkMetadata json_parse chunkId now flow2Configured response s = (s', Ret tt)
    /\ s'.(documents) = s.(documents) /\ s'.(kb_vectors) = s.(kb_vectors)
    /\ s'.(curation_queue) = s.(curation_queue) /\ s'.(profiles) = s.(profiles)
    /\ s'.(next_id) = s.(next_id)
    /\ Forall2 (fun c c' =>
         if chunk_by_id chunkId c
         then Chunk.id c' = Chunk.id c /\ Chunk.document_id c' = Chunk.document_id c
              /\ Chunk.chunk_text c' = Chunk.chunk_text c
              /\ Chunk.review_status c' = RPending
         else c' = c) s.(document_chunks) s'.(document_chunks).
Proof. exact (enrichChunkMetadata_step json_parse chunkId now flow2Configured response s). Qed.

Lemma enrich_step_keys (chunkId : string) (l l' : list Chunk.t)
    (HF : Forall2 (fun c c' =>
         if chunk_by_id chunkId c
         then Chunk.id c' = Chunk.id c /\ Chunk.document_id c' = Chunk.document_id c
              /\ Chunk.chunk_text c' = Chunk.chunk_text c
              /\ Chunk.review_status c' = RPending
         else c' = c) l l')
    (Hp : forall x, In x l -> Chunk.id x = chunkId -> Chunk.review_status x = RPending) :
  map (fun c => (Chunk.id c, Chunk.document_id c, Chunk.review_status c)) l'
  = map (fun c => (Chunk.id c, Chunk.document_id c, Chunk.review_status c)) l.
Proof.
  induction HF as [|x x' l l' Hx HF IH]; [reflexivity|]. simpl.
  rewrite IH by (intros y Hy; apply Hp; right; exact Hy).
  destruct (chunk_by_id chunkId x) eqn:E.
  - destruct Hx as [H1 [H2 [_ H4]]]. rewrite H1, H2, H4.
    apply String.eqb_eq in E. rewrite (Hp x (or_introl eq_refl) E). reflexivity.
  - subst x'. reflexivity.
Qed.

Lemma enrich_all_keys (json_parse : string -> option jval) (now : string)
    (flow2Configured : bool) (responses : string -> flowise_response) (cs : list Chunk.t) :
  forall s,
  (forall c x, In c cs -> In x s.(document_chunks) -> Chunk.id x = Chunk.id c ->
               Chunk.review_status x = RPending) ->
  exists s',
    enrich_all json_parse now flow2Configured responses cs s = (s', Ret tt)
    /\ map (fun c => (Chunk.id c, Chunk.document_id c, Chunk.review_status c)) s'.(document_chunks)
       = map (fun c => (Chunk.id c, Chunk.document_id c, Chunk.review_status c)) s.(document_chunks)
    /\ s'.(documents) = s.(documents) /\ s'.(kb_vectors) = s.(kb_vectors)
    /\ s'.(curation_queue) = s.(curation_queue).
Proof.
  induction cs as [|c cs IH]; intros s H.
  - exists s. repeat split.
  - cbn [enrich_all]. unfold bind at 1. cbv beta.
    destruct (enrichChunkMetadata_step json_parse (Chunk.id c) now flow2Configured
                (responses (Chunk.id c)) s) as [s1 [E [H1 [H2 [H3 [_ [_ HF]]]]]]].
    rewrite E.
    assert (K1 := enrich_step_keys _ _ _ HF (fun x Hx Hid => H c x (or_introl eq_refl) Hx Hid)).
    destruct (IH s1) as [s2 [E2 [K2 [G1 [G2 G3]]]]].
    { intros c' x Hc' Hx Hid.
      apply (in_map (fun c => (Chunk.id c, Chunk.document_id c, Chunk.review_status c))) in Hx.
      rewrite K1 in Hx. apply in_map_iff in Hx as [y [Hy Hyin]].
      injection Hy as Hy1 _ Hy3. rewrite <- Hy3.
      apply (H c' y (or_intror Hc') Hyin). congruence. }
    exists s2. split; [exact E2|]. split; [congruence|]. split; [congruence|]. split; congruence.
Qed.

Lemma NoDup_map_eq {A B} (f : A -> B) (l : list A) (x y : A) :
  NoDup (map f l) -> In x l -> In y l -> f x = f y -> x = y.
Proof.
  induction l as [|a l IH]; simpl; intros Hn Hx Hy Hf; [contradiction|].
  inversion Hn as [|? ? Hnot Hn']; subst.
  destruct Hx as [<-|Hx], Hy as [<-|Hy]; auto.
  - exfalso. apply Hnot. rewrite Hf. apply in_map. exact Hy.
  - exfalso. apply Hnot. rewrite <- Hf. apply in_map. exact Hx.
Qed.

(** With chunk ids unique, enrichDocumentChunks enriches min(limit, n)
    chunks, n the number of the document's pending chunks without metadata,
    and reports that number; every chunk row keeps its id, its document and
    its review status, and the documents, vectors and queue are unchanged. *)
Theorem enrichDocumentChunks_count (json_parse : string -> option jval) (documentId : string)
    (limit : nat) (now : string) (flow2Configured : bool)
    (responses : string -> flowise_response) (s : db)
    (Hid : NoDup (map Chunk.id s.(document_chunks))) :
  exists s',
    enrichDocumentChunks json_parse documentId limit now flow2Configured responses None s
    = (s', Ret (Nat.min limit (length (filter (enrich_eligible documentId) s.(document_chunks)))))
    /\ map (fun c => (Chunk.id c, Chunk.document_id c, Chunk.review_status c)) s'.(document_chunks)
       = map (fun c => (Chunk.id c, Chunk.document_id c, Chunk.review_status c)) s.(document_chunks)
    /\ s'.(documents) = s.(documents) /\ s'.(kb_vectors) = s.(kb_vectors)
    /\ s'.(curation_queue) = s.(curation_queue).
Proof.
  unfold enrichDocumentChunks, bind at 1, get. cbv beta. unfold bind at 1. cbv beta.
  set (l := firstn limit (filter (enrich_eligible documentId) s.(document_chunks))).
  destruct (enrich_all_keys json_parse now flow2Configured responses l s) as [s' [E K]].
  { intros c x Hc Hx Hxc.
    assert (Hc' : In c (filter (enrich_eligible documentId) s.(document_chunks))).
    { rewrite <- (firstn_skipn limit). apply in_or_app. left. exact Hc. }
    apply filter_In in Hc' as [Hcin Hel].
    rewrite (NoDup_map_eq Chunk.id _ x c Hid Hx Hcin Hxc).
    unfold enrich_eligible, chunk_is_pending in Hel.
    apply andb_prop in Hel as [Hel _]. apply andb_prop in Hel as [_ Hel].
    apply review_status_eqb_true. exact Hel. }
  rewrite E. exists s'. split; [|exact K].
  unfold ret, l. rewrite length_firstn. reflexivity.
Qed.

Lemma length_filter_map {A B} (p : B -> bool) (h : A -> B) (l : list A) :
  length (filter (fun x => p (h x)) l) = length (filter p (map h l)).
Proof. induction l as [|x l IH]; simpl; [reflexivity|]. destruct (p (h x)); simpl; auto. Qed.

Lemma filter_all {A} (f : A -> bool) (l : list A) :
  Forall (fun x => f x = true) l -> filter f l = l.
Proof. induction 1 as [|x l Hx _ IH]; simpl; [reflexivity|]. rewrite Hx, IH. reflexivity. Qed.

Lemma build_inserts_filter_doc (documentId : string) (document : option Doc.t)
    (uploaderName : option string) (now : string) (chunks : list FlowiseChunk) (fresh idx : nat) :
  filter (chunk_by_doc documentId) (build_inserts documentId document uploaderName now fresh idx chunks)
  = build_inserts documentId document uploaderName now fresh idx chunks.
Proof.
  apply filter_all. refine (Forall_impl _ _ (build_inserts_owner _ _ _ _ _ _ _)).
  intros r Hr. unfold chunk_by_doc. rewrite Hr. apply String.eqb_refl.
Qed.

Lemma build_inserts_text (documentId : string) (document : option Doc.t)
    (uploaderName : option string) (now : string) (chunks : list FlowiseChunk) :
  forall fresh idx,
    map Chunk.chunk_text (build_inserts documentId document uploaderName now fresh idx chunks)
    = map text chunks.
Proof.
  induction chunks as [|c cs IH]; intros fresh idx; simpl; [reflexivity|].
  f_equal; apply IH.
Qed.

Lemma build_inserts_pending (documentId : string) (document : option Doc.t)
    (uploaderName : option string) (now : string) (chunks : list FlowiseChunk) :
  Forall (fun c => filtered c = false) chunks ->
  forall fresh idx,
    Forall (fun r => Chunk.review_status r = RPending)
      (build_inserts documentId document uploaderName now fresh idx chunks).
Proof.
  induction 1 as [|c cs Hc _ IH]; intros fresh idx; simpl; constructor; auto.
  rewrite Hc. reflexivity.
Qed.

Lemma count_insert_status (chunks : list FlowiseChunk) :
  length (filter (fun st => review_status_eqb st RPending) (map insert_status chunks))
    = active_count chunks
  /\ length (filter (fun st => review_status_eqb st RFiltered) (map insert_status chunks))
    = length (filter filtered chunks).
Proof.
  unfold active_count. rewrite <- !length_filter_map. split; f_equal; apply filter_ext;
  intros c; unfold insert_status; destruct (filtered c); reflexivity.
Qed.

(** Right after processAndStoreDocument stored a non-empty chunk list for a
    document that had no chunk yet, getDocumentStats reports the number of
    unfiltered chunks both as total and as pending, the number of flagged
    chunks as filtered, and the approved and rejected counters as they were. *)
Theorem getDocumentStats_after_processing (s : db)
    (documentId storageUrl docType now : string) (filters : list string)
    (chunks : list FlowiseChunk) (d : Doc.t)
    (Hd : filter (doc_by_id documentId) s.(documents) = [d])
    (Hnone : filter (chunk_by_doc documentId) s.(document_chunks) = [])
    (Hne : chunks <> []) :
  exists s',
    processAndStoreDocument documentId storageUrl docType filters now (Ret chunks) None s
      = (s', Ret (active_count chunks))
    /\ getDocumentStats s' documentId None
       = Stats.mk (active_count chunks) d.(Doc.approved_chunks) d.(Doc.rejected_chunks)
                  (active_count chunks) (length (filter filtered chunks)).
Proof.
  destruct chunks as [|c cs]; [contradiction Hne; reflexivity|].
  unfold processAndStoreDocument, bind, ret, throw, get, modify, try_catch, lift.
  cbn [Nat.eqb length].
  eexists; split; [reflexivity|].
  unfold getDocumentStats, set_documents, set_next_id, set_chunks; cbn [documents document_chunks].
  rewrite !filter_update_where by reflexivity; rewrite Hd.
  rewrite filter_app, Hnone, app_nil_l, build_inserts_filter_doc.
  destruct (count_insert_status (c :: cs)) as [Hp Hf].
  rewrite (length_filter_map (fun st => review_status_eqb st RPending) Chunk.review_status),
    (length_filter_map (fun st => review_status_eqb st RFiltered) Chunk.review_status),
    build_inserts_status, Hp, Hf.
  reflexivity.
Qed.

(** On the direct-Gemini path (processDocumentWithGemini returns the chunks
    of chunkTextWithGemini), a non-empty chunk list is stored in full: the
    document's total is the number of chunks, and every inserted row belongs
    to the document, is pending (never filtered) and carries the chunk's text. *)
Theorem gemini_chunks_stored_pending (json_parse : string -> option jval)
    (text : string) (answer : outcome string) (s : db)
    (documentId storageUrl docType now : string) (filters : list string) (d : Doc.t)
    (Hd : filter (doc_by_id documentId) s.(documents) = [d])
    (Hne : chunkTextWithGemini json_parse text answer <> []) :
  exists s' inserted,
    processAndStoreDocument documentId storageUrl docType filters now
      (Ret (map flowise_of_gchunk (chunkTextWithGemini json_parse text answer))) None s
      = (s', Ret (length (chunkTextWithGemini json_parse text answer)))
    /\ option_map Doc.total_chunks (doc_row s' documentId)
       = Some (length (chunkTextWithGemini json_parse text answer))
    /\ s'.(document_chunks) = app s.(document_chunks) inserted
    /\ Forall (fun r => Chunk.document_id r = documentId /\ Chunk.review_status r = RPending)
              inserted
    /\ map Chunk.chunk_text inserted = map GChunk.text (chunkTextWithGemini json_parse text answer).
Proof.
  destruct (chunkTextWithGemini_props json_parse text answer) as [Hf _].
  set (gs := chunkTextWithGemini json_parse text answer) in *.
  assert (Hunf : forall c, In c (map flowise_of_gchunk gs) -> filtered c = false).
  { intros c Hc. apply in_map_iff in Hc as [g [<- Hg]].
    exact (proj1 (proj1 (Forall_forall _ _) Hf g Hg)). }
  assert (Hact : active_count (map flowise_of_gchunk gs) = length gs).
  { unfold active_count. rewrite filter_all, length_map; [reflexivity|].
    apply Forall_forall. intros c Hc. rewrite (Hunf c Hc). reflexivity. }
  destruct gs as [|g gs']; [contradiction Hne; reflexivity|].
  rewrite <- Hact.
  unfold processAndStoreDocument, bind, ret, throw, get, modify, try_catch, lift.
  cbn [Nat.eqb length map].
  do 2 eexists; split; [reflexivity|].
  unfold doc_row, set_documents, set_next_id, set_chunks; cbn [documents document_chunks].
  rewrite !filter_update_where by reflexivity; rewrite Hd.
  split; [reflexivity|]. split; [reflexivity|].
  split.
  - apply Forall_forall. intros r Hr. split.
    + exact (proj1 (Forall_forall _ _) (build_inserts_owner _ _ _ _ _ _ _) r Hr).
    + refine (proj1 (Forall_forall _ _) (build_inserts_pending _ _ _ _ _ _ _ _) r Hr).
      apply Forall_forall. exact Hunf.
  - rewrite build_inserts_text. cbn [map]. rewrite map_map. reflexivity.
Qed.



(** A caller that is not an admin (no session, no profile, or a profile
    whose role is not admin) gets an error from deleteDocument, and neither
    the store nor the storage bucket changes. *)
Theorem deleteDocument_admin_only (session : option string) (documentId : string)
    (deleteError : option string) (s : db) (storage : list string)
    (H : caller_is_admin s session = false) :
  exists msg, deleteDocument session documentId deleteError (s, storage) = ((s, storage), Throw msg).
Proof.
  unfold deleteDocument. unfold caller_is_admin in H.
  destruct session as [uid|]; [|eexists; reflexivity].
  destruct (single _) as [p|]; [|eexists; reflexivity].
  rewrite H. eexists; reflexivity.
Qed.


(** The server-side admin checks look at the role only: an admin whose
    profile is deactivated, whom isRole refuses, still passes ensureAdmin
    and can delete a document. *)
Theorem admin_checks_ignore_is_active (s : db) (uid documentId : string) (p : Profile.t)
    (storage : list string)
    (Hp : filter (fun q => String.eqb q.(Profile.id) uid) s.(profiles) = [p])
    (Hadmin : p.(Profile.role) = Admin) :
  isRole (Some p) Admin = Profile.is_active p
  /\ ensureAdmin (Some uid) s = (s, Ret tt)
  /\ exists storage',
       deleteDocument (Some uid) documentId None (s, storage)
       = ((delete_document documentId s, storage'), Ret tt).
Proof.
  split; [|split].
  - unfold isRole. rewrite Hadmin. destruct (Profile.is_active p); reflexivity.
  - unfold ensureAdmin, bind, get. rewrite Hp. cbn [single]. rewrite Hadmin. reflexivity.
  - unfold deleteDocument. rewrite Hp. cbn [single]. rewrite Hadmin. cbn [user_role_eqb].
    eexists; reflexivity.
Qed.

Lemma approve_document_ok (documentId : string) (s : db) :
  exists s', approve_document documentId None s = (s', Ret (mkResponse 200 "success")).
Proof.
  unfold approve_document, bind, modify, get, ret.
  match goal with |- context [single ?l] => destruct (single l) as [doc|] end;
    [|eexists; reflexivity].
  destruct (Doc.source_url doc) as [u|]; [|eexists; reflexivity].
  destruct (String.eqb u ""); eexists; reflexivity.
Qed.

(** approveDocument of the admin API and the approve-document request of
    the edge function leave the store in the same state for every caller
    and store answer; approveDocument succeeds exactly when the request
    answers 200 "success". *)
Theorem approveDocument_same_as_edge (session : option string) (documentId : string)
    (docError : option string) (s : db) :
  fst (approveDocument session documentId docError s)
    = fst (serve session (ApproveDocument documentId) docError s)
  /\ (snd (approveDocument session documentId docError s) = Ret tt
      <-> snd (serve session (ApproveDocument documentId) docError s)
          = Ret (mkResponse 200 "success")).
Proof.
  unfold approveDocument, serve, ensureAdmin, try_catch, bind, get, throw, ret.
  destruct session as [uid|].
  - destruct (single _) as [p|]; [destruct (user_role_eqb (Profile.role p) Admin)|].
    + destruct docError as [e|].
      * cbn. split; [reflexivity|]. split; discriminate.
      * destruct (approve_document_ok documentId s) as [s' E]. rewrite E.
        cbn. split; [reflexivity|split; intros; reflexivity].
    + cbn. split; [reflexivity|]. split; discriminate.
    + cbn. split; [reflexivity|]. split; discriminate.
  - cbn. split; [reflexivity|]. split; discriminate.
Qed.



Lemma conf_le_total (a b : Chunk.t) : conf_le a b = false -> conf_le b a = true.
Proof.
  unfold conf_le.
  destruct (Chunk.confidence_score a) as [[| | x | | |]|], (Chunk.confidence_score b) as [[| | y | | |]|];
    try discriminate; try reflexivity.
  intro H. apply Qle_bool_iff, Qlt_le_weak, Qnot_le_lt.
  intro H'. apply Qle_bool_iff in H'. congruence.
Qed.

Lemma insert_by_hdrel (a c : Chunk.t) (l : list Chunk.t) :
  HdRel (fun x y => conf_le x y = true) a l -> conf_le a c = true ->
  HdRel (fun x y => conf_le x y = true) a (insert_by c l).
Proof.
  intros H Hac. destruct l as [|c' l]; simpl; [constructor; exact Hac|].
  destruct (conf_le c c'); constructor; [exact Hac|]. inversion H; assumption.
Qed.

Lemma insert_by_sorted (c : Chunk.t) (l : list Chunk.t) :
  Sorted (fun x y => conf_le x y = true) l -> Sorted (fun x y => conf_le x y = true) (insert_by c l).
Proof.
  induction l as [|c' l IH]; intros H; simpl; [constructor; constructor|].
  destruct (conf_le c c') eqn:E.
  - constructor; [exact H|constructor; exact E].
  - apply Sorted_inv in H as [Hs Hr]. constructor; [exact (IH Hs)|].
    apply insert_by_hdrel; [exact Hr|apply conf_le_total, E].
Qed.

Lemma insert_by_perm (c : Chunk.t) (l : list Chunk.t) : Permutation (insert_by c l) (c :: l).
Proof.
  induction l as [|c' l IH]; simpl; [reflexivity|].
  destruct (conf_le c c'); [reflexivity|].
  transitivity (c' :: c :: l); [constructor; exact IH|constructor].
Qed.

(** getChunksForReview returns, without touching the store, exactly the
    document's pending chunks (as a permutation of the table's rows), ordered
    by confidence_score ascending with the chunks without a numeric score
    last. *)
Theorem getChunksForReview_sorted (documentId : string) (s : db) :
  exists cs,
    getChunksForReview documentId None s = (s, Ret cs)
    /\ Permutation cs (filter chunk_is_pending (filter (chunk_by_doc documentId) s.(document_chunks)))
    /\ Sorted (fun a b => conf_le a b = true) cs.
Proof.
  eexists. split; [reflexivity|]. split.
  - generalize (filter chunk_is_pending (filter (chunk_by_doc documentId) s.(document_chunks))).
    induction l as [|c l IH]; simpl; [reflexivity|].
    rewrite insert_by_perm. constructor. exact IH.
  - generalize (filter chunk_is_pending (filter (chunk_by_doc documentId) s.(document_chunks))).
    induction l as [|c l IH]; simpl; [constructor|]. apply insert_by_sorted, IH.
Qed.

(** ** Instances of the properties above *)

Lemma removeCoverPages_from_first_content_witness :
  list_ascii_of_string (removeCoverPages ("Cover" ++ String nl "Intro text"))
  = list_ascii_of_string "Intro text".
Proof.
  refine (proj1 (removeCoverPages_from_first_content ("Cover" ++ String nl "Intro text")
                   [list_ascii_of_string "Cover"] (list_ascii_of_string "Intro text") [] _ _ _)).
  - vm_compute. reflexivity.
  - constructor; [vm_compute; reflexivity|constructor].
  - vm_compute. reflexivity.
Defined.

Lemma removeCoverPages_no_content_witness :
  list_ascii_of_string (removeCoverPages ("Cover" ++ String nl "12"))
  = list_ascii_of_string "12".
Proof.
  refine (removeCoverPages_no_content ("Cover" ++ String nl "12") _).
  vm_compute. reflexivity.
Defined.

Lemma uploadDocument_duplicate_witness :
  uploadDocument 100 ["application/pdf"] (fun p => p) (mk_doc "x" PPending None)
    (File.mk "report.pdf" 10 "application/pdf") "vbc" (Some "https://x") 7 None (Some "u1") None
    (sample_db, [])
  = ((sample_db, []), Throw "This document has already been uploaded for this knowledge base.").
Proof.
  apply (uploadDocument_duplicate 100 ["application/pdf"] (fun p => p) (mk_doc "x" PPending None)
           (File.mk "report.pdf" 10 "application/pdf") "vbc" "https://x"
           (mk_doc "d1" PReview (Some "https://x")) 7 None (Some "u1") None sample_db []).
  - discriminate.
  - vm_compute. reflexivity.
Defined.

Lemma uploadDocument_unauthenticated_orphan_witness :
  uploadDocument 100 ["application/pdf"] (fun p => p) (mk_doc "x" PPending None)
    (File.mk "my report.pdf" 10 "application/pdf") "vbc" None 7 None None None (upload_db, [])
  = ((upload_db, ["uploads/7-my_report.pdf"]), Throw "User not authenticated").
Proof.
  apply (uploadDocument_unauthenticated_orphan 100 ["application/pdf"] (fun p => p)
           (mk_doc "x" PPending None) (File.mk "my report.pdf" 10 "application/pdf") "vbc" None 7
           None upload_db []).
  - left. reflexivity.
  - cbn. lia.
  - left. reflexivity.
Defined.

Lemma uploadDocument_success_witness :
  exists s' row,
    uploadDocument 100 ["application/pdf"] (fun p => p) (mk_doc "x" PPending None)
      (File.mk "my report.pdf" 10 "application/pdf") "vbc" (Some "https://y") 7 None (Some "u1")
      None (upload_db, [])
    = ((s', ["uploads/7-my_report.pdf"]), Ret ("uploads/7-my_report.pdf", "doc-0"))
    /\ s'.(documents) = (upload_db.(documents) ++ [row])%list
    /\ Doc.source_url row = Some "https://y".
Proof.
  destruct (uploadDocument_success 100 ["application/pdf"] (fun p => p) (mk_doc "x" PPending None)
              (File.mk "my report.pdf" 10 "application/pdf") "vbc" (Some "https://y") 7 "u1"
              upload_db [] (or_intror eq_refl) (ltac:(cbn; lia)) (or_introl eq_refl))
    as [s' [row [E [Hd [_ [_ [_ [_ [Hu _]]]]]]]]].
  exists s', row. split; [exact E|split; [exact Hd|exact Hu]].
Defined.

Lemma enrichDocumentChunks_count_witness :
  exists s',
    enrichDocumentChunks (fun _ => None) "d4" 1 "t1" true (fun _ => FlowErr "503") None
      (mkDb [] [mk_chunk "e1" "d4" 0 RPending None; mk_chunk "e2" "d4" 1 RPending None]
            [] [] sample_profiles 0)
    = (s', Ret 1).
Proof.
  destruct (enrichDocumentChunks_count (fun _ => None) "d4" 1 "t1" true (fun _ => FlowErr "503")
              (mkDb [] [mk_chunk "e1" "d4" 0 RPending None; mk_chunk "e2" "d4" 1 RPending None]
                    [] [] sample_profiles 0))
    as [s' [E _]].
  - constructor; [intros [H|[]]; discriminate H|constructor; [intros []|constructor]].
  - exists s'. exact E.
Defined.

Lemma getDocumentStats_after_processing_witness :
  exists s',
    processAndStoreDocument "d2" "https://store/d2" "vbc" ["toc"] "t0" (Ret five_chunks) None
      upload_db = (s', Ret 4)
    /\ getDocumentStats s' "d2" None = Stats.mk 4 0 0 4 1.
Proof.
  exact (getDocumentStats_after_processing upload_db "d2" "https://store/d2" "vbc" "t0" ["toc"]
           five_chunks (mk_doc "d2" PPending None) eq_refl eq_refl ltac:(discriminate)).
Defined.

Lemma gemini_chunks_stored_pending_witness :
  exists s' inserted,
    processAndStoreDocument "d2" "https://store/d2" "vbc" [] "t0"
      (Ret (map flowise_of_gchunk
              (chunkTextWithGemini (fun _ => None) "Value based care pays for outcomes."
                 (Throw "quota")))) None upload_db
    = (s', Ret 1)
    /\ Forall (fun r => Chunk.document_id r = "d2" /\ Chunk.review_status r = RPending) inserted.
Proof.
  destruct (gemini_chunks_stored_pending (fun _ => None) "Value based care pays for outcomes."
              (Throw "quota") upload_db "d2" "https://store/d2" "vbc" "t0" []
              (mk_doc "d2" PPending None) eq_refl)
    as [s' [ins [E [_ [_ [Hf _]]]]]].
  - vm_compute. discriminate.
  - exists s', ins. split; [exact E|exact Hf].
Defined.

Lemma deleteDocument_admin_only_witness :
  exists msg,
    deleteDocument (Some "u1") "d1" None (sample_db, ["uploads/report.pdf"])
    = ((sample_db, ["uploads/report.pdf"]), Throw msg).
Proof. exact (deleteDocument_admin_only (Some "u1") "d1" None sample_db _ eq_refl). Defined.


Lemma admin_checks_ignore_is_active_witness :
  isRole (Some (Profile.mk "a2" None Admin false)) Admin = false
  /\ ensureAdmin (Some "a2") (mkDb [mk_doc "d1" PReview None] [] [] []
                               [Profile.mk "a2" None Admin false] 0)
     = (mkDb [mk_doc "d1" PReview None] [] [] [] [Profile.mk "a2" None Admin false] 0, Ret tt).
Proof.
  destruct (admin_checks_ignore_is_active
              (mkDb [mk_doc "d1" PReview None] [] [] [] [Profile.mk "a2" None Admin false] 0)
              "a2" "d1" (Profile.mk "a2" None Admin false) [] eq_refl eq_refl) as [H1 [H2 _]].
  split; [exact H1|exact H2].
Defined.


